(** * AI Career Mentor: a shallow embedding of [ell_exp.py]

    The script is a Streamlit page.  Every user interaction re-runs the whole
    script: the module-level initialisation of [st.session_state] and then
    [main].  Three things are observable from outside a run:
    - the session dictionary [st.session_state], which survives across runs;
    - the sequence of Streamlit calls that the run performs;
    - the outbound calls to the hosted model.
    A run is therefore modelled as a computation over a state made of the
    session dictionary and a chronological trace of events, which can also end
    with a Python exception. *)

From stdpp Require Import gmap strings list pretty.

Open Scope string_scope.
Open Scope list_scope.

(** ** Text constants of the script *)

(** The double-quote character, for the texts that contain it. *)
Definition dq : string := String (Ascii.ascii_of_nat 34) EmptyString.

(** The custom CSS passed to the first [st.markdown] call of [main]. *)
Definition css_block : string :=
"
        <style>
        .stButton>button {
            background-color: #4CAF50;
            color: white;
            padding: 0.5rem 1rem;
            border-radius: 8px;
            border: none;
            transition: all 0.3s;
        }
        .stButton>button:hover {
            background-color: #45a049;
            transform: translateY(-2px);
        }
        .quote-box {
            padding: 1rem;
            background-color: rgb(38 39 48);
            border-radius: 10px;
            margin: 1rem 0;
        }
        .feature-card {
            padding: 1.5rem;
            background-color: white;
            border-radius: 10px;
            box-shadow: 0 4px 6px rgba(0,0,0,0.1);
            margin: 1rem 0;
        }
        </style>
    ".

(** The numbered steps shown in the About view. *)
Definition about_steps : string :=
"
        To get started:
        1. Enter your OpenAI API key in the sidebar
        2. Choose a feature you'd like to explore
        3. Follow the prompts to get personalized career guidance or interview questions
        ".

(** The sample program shown by [st.code] in the How It Works view. *)
Definition code_sample : string :=
"
import ell

@ell.simple(model=" +:+ dq +:+ "gpt-4o" +:+ dq +:+ ")
def write_a_poem(name: str):
    " +:+ dq +:+ dq +:+ dq +:+ "You are a helpful assistant that writes in lower case." +:+ dq +:+ dq +:+ dq +:+ "
    return f" +:+ dq +:+ "Write a poem for the developer named {name}" +:+ dq +:+ "

write_a_poem(" +:+ dq +:+ "John" +:+ dq +:+ ")
        ".

(** The fixed poem rendered by the Run Example button. *)
Definition poem_text : string :=
"
                *here's a poem for john, the coding star*
                
                in lines of code, john finds his way,
                debugging issues day by day,
                with coffee close and screen aglow,
                he makes the functions smoothly flow.
                
                a developer's life, he chose to lead,
                turning concepts into reality with speed,
                in john's world of ones and zeros bright,
                every bug fixed brings pure delight.
                ".

(** The list of components shown in the How It Works view. *)
Definition components_text : string :=
"
        The app uses several key components:
        1. 🎯 **Structured Output:** Uses Pydantic models for consistent responses
        2. 🤖 **AI Integration:** Leverages GPT-4 through the ell package
        3. 🎨 **Interactive UI:** Built with Streamlit for a seamless experience
        4. 🔄 **Real-time Processing:** Instant feedback and generation
        ".

(** The pointer to the ell documentation closing the How It Works view. *)
Definition docs_pointer : string :=
"
        🌟 **Want to dive deeper into ell?**  
        Explore the comprehensive [ell documentation](https://docs.ell.so/) to unlock its full potential and build amazing AI-powered applications!
        ".

(** The missing-credential message (lines 27, 45, 145, 166, 212). *)
Definition missing_key_msg : string :=
  "Please enter your OpenAI API key in the sidebar first!".

(** The two incomplete-input messages (lines 156 and 175). *)
Definition fill_all_fields_msg : string :=
  "Please fill in all fields to get personalized advice!".
Definition enter_role_msg : string := "Please enter a job role!".

(** The quotes of [get_random_inspiration]. *)
Definition quotes : list string :=
  [ "The only way to do great work is to love what you do. - Steve Jobs";
    "Choose a job you love, and you'll never work a day in your life. - Confucius";
    "Your work is going to fill a large part of your life, and the only way to be truly satisfied is to do what you believe is great work. - Steve Jobs";
    "Success is not final, failure is not fatal: it is the courage to continue that counts. - Winston Churchill" ].

(** The text of [st.write] in the About view: three adjacent literals. *)
Definition about_welcome : string :=
  "Welcome to AI Career Mentor, your intelligent companion in career development! " +:+
  "This app combines the power of advanced AI with intuitive design to help you " +:+
  "make informed career decisions and prepare for your dream job.".

(** ** Data model *)

(** The two pydantic models. *)
Record CareerSuggestion := { career : string; reasons : string }.
Record InterviewQuestions := { role : string; questions : list string }.

(** The value of [response_format] handed to [ell.complex]. *)
Inductive response_format := FmtCareerSuggestion | FmtInterviewQuestions.

(** Values held under a key of [st.session_state]: [None] or a [str]. *)
Inductive pyval := PyNone | PyStr (s : string).

(** Python truthiness of a [str] and of a session value. *)
Definition truthy_str (s : string) : bool :=
  match s with EmptyString => false | String _ _ => true end.
Definition truthy (v : pyval) : bool :=
  match v with PyNone => false | PyStr s => truthy_str s end.

(** Exception classes that occur.  The last two derive from [BaseException]
    only, so that [except Exception] lets them through. *)
Inductive exn_class :=
| AttributeError | OpenAIError
| APIConnectionError | AuthenticationError | RateLimitError | ValidationError
| OtherException
| KeyboardInterrupt | SystemExit.

Definition is_Exception (c : exn_class) : bool :=
  match c with KeyboardInterrupt | SystemExit => false | _ => true end.

(** A raised exception: its class and the text of [str(e)]. *)
Record py_exn := { exn_cls : exn_class; exn_str : string }.

(** What [response.parsed] can hold, and the message object returned by a
    function decorated with [ell.complex]. *)
Inductive parsed_obj :=
| ParsedCareer (c : CareerSuggestion)
| ParsedQuestions (q : InterviewQuestions).
Record message := { parsed : parsed_obj }.

(** One outbound call: the fixed model name, the credential of the client,
    the declared output shape and the prompt. *)
Record request := {
  req_model : string;
  req_api_key : string;
  req_format : response_format;
  req_prompt : string }.

(** The provider either answers with a message or raises. *)
Inductive outcome := Returns (m : message) | Raises (e : py_exn).

(** The hosted model is opaque: its answer may depend on the request and on
    every request made before it in the session. *)
Definition provider_t : Type := list request -> request -> outcome.

(** The four entries of the navigation radio. *)
Inductive feature :=
| CareerGuidance | InterviewQuestionGenerator | AboutTheApp | HowItWorks.

Definition feature_label (f : feature) : string :=
  match f with
  | CareerGuidance => "Career Guidance"
  | InterviewQuestionGenerator => "Interview Question Generator"
  | AboutTheApp => "About the App"
  | HowItWorks => "How It Works"
  end.

Definition feature_options : list string :=
  [ "Career Guidance"; "Interview Question Generator"; "About the App"; "How It Works" ].

(** What the user's browser holds during one run: the value of every input
    widget, whether each button is the one just clicked, and the draw of
    [random.choice]. *)
Record widgets := {
  w_api_key : string;
  w_feature : feature;
  w_interests : string;
  w_skills : string;
  w_goals : string;
  w_role : string;
  w_generate_career : bool;
  w_generate_questions : bool;
  w_run_example : bool;
  w_random : nat }.

(** The Streamlit calls of the script, and the outbound call. *)
Inductive event :=
| st_markdown (body : string) (unsafe_allow_html : bool)
| st_title (body : string)
| st_header (body : string)
| st_subheader (body : string)
| st_write (body : string)
| st_info (body : string)
| st_success (body : string)
| st_error (body : string)
| st_code (body language : string)
| st_spinner (text : string)
| st_columns (n : nat)
| st_text_area (label placeholder : string)
| st_text_input (label placeholder : string)
| st_button (label : string)
| st_sidebar_title (body : string)
| st_sidebar_text_input (label help : string) (value : pyval)
| st_sidebar_success (body : string)
| st_sidebar_warning (body : string)
| st_sidebar_markdown (body : string)
| st_sidebar_radio (label : string) (options : list string)
| provider_call (r : request).

(** ** The state and the monad of a run *)

Record state := {
  session_state : gmap string pyval;
  trace : list event }.

Inductive result (A : Type) := Ok (a : A) | Raise (e : py_exn).
Arguments Ok {A} a.
Arguments Raise {A} e.

Definition M (A : Type) : Type := state -> result A * state.

Definition ret {A} (a : A) : M A := fun s => (Ok a, s).

Definition bind {A B} (m : M A) (k : A -> M B) : M B :=
  fun s =>
    match m s with
    | (Ok a, s') => k a s'
    | (Raise e, s') => (Raise e, s')
    end.

(** stdpp's monad notations: [x ← m; k] and [m;; k]. *)
Global Instance M_ret : MRet M := @ret.
Global Instance M_bind : MBind M := fun A B k m => bind m k.

Definition raise {A} (e : py_exn) : M A := fun s => (Raise e, s).

(** [try: body / except Exception as e: handler e]. *)
Definition try_except {A} (body : M A) (handler : py_exn -> M A) : M A :=
  fun s =>
    match body s with
    | (Ok a, s') => (Ok a, s')
    | (Raise e, s') =>
        if is_Exception (exn_cls e) then handler e s' else (Raise e, s')
    end.

Definition emit (e : event) : M unit :=
  fun s => (Ok tt, {| session_state := session_state s; trace := trace s ++ [e] |}).

(** [key in st.session_state]. *)
Definition session_contains (key : string) : M bool :=
  fun s => (Ok (bool_decide (is_Some (session_state s !! key))), s).

(** [st.session_state.key]: an absent key raises [AttributeError]. *)
Definition session_get (key : string) : M pyval :=
  fun s =>
    match session_state s !! key with
    | Some v => (Ok v, s)
    | None =>
        (Raise {| exn_cls := AttributeError;
                  exn_str := "st.session_state has no attribute " +:+ dq +:+ key +:+ dq |}, s)
    end.

(** [st.session_state.key = v]. *)
Definition session_set (key : string) (v : pyval) : M unit :=
  fun s => (Ok tt, {| session_state := <[key := v]> (session_state s); trace := trace s |}).

(** The outbound calls made so far, oldest first. *)
Definition calls_of (tr : list event) : list request :=
  omap (fun e => match e with provider_call r => Some r | _ => None end) tr.

(** [for x in l: body x], for a body that returns nothing. *)
Fixpoint for_each {A} (l : list A) (body : A -> M unit) : M unit :=
  match l with
  | [] => ret tt
  | x :: l' => body x;; for_each l' body
  end.

(** [enumerate(l, start)]. *)
Fixpoint enumerate {A} (l : list A) (start : nat) : list (nat * A) :=
  match l with
  | [] => []
  | x :: l' => (start, x) :: enumerate l' (S start)
  end.

(** [random.choice(l)], for the draw [r] of the generator. *)
Definition random_choice (r : nat) (l : list string) : string :=
  nth (r mod length l) l EmptyString.

(** Attribute reads on [response.parsed]. *)
Definition no_attribute (cls attr : string) : py_exn :=
  {| exn_cls := AttributeError;
     exn_str := "'" +:+ cls +:+ "' object has no attribute '" +:+ attr +:+ "'" |}.

Definition attr_career (p : parsed_obj) : M string :=
  match p with
  | ParsedCareer c => ret (career c)
  | ParsedQuestions _ => raise (no_attribute "InterviewQuestions" "career")
  end.
Definition attr_reasons (p : parsed_obj) : M string :=
  match p with
  | ParsedCareer c => ret (reasons c)
  | ParsedQuestions _ => raise (no_attribute "InterviewQuestions" "reasons")
  end.
Definition attr_questions (p : parsed_obj) : M (list string) :=
  match p with
  | ParsedQuestions q => ret (questions q)
  | ParsedCareer _ => raise (no_attribute "CareerSuggestion" "questions")
  end.

(** [openai.Client(api_key=v)]: the client is the credential it carries.
    Without a key the constructor raises. *)
Definition openai_Client (v : pyval) : M string :=
  match v with
  | PyStr k => ret k
  | PyNone =>
      raise {| exn_cls := OpenAIError;
               exn_str := "The api_key client option must be set" |}
  end.

(** Input widgets draw themselves and return what the browser holds. *)
Definition text_area (label placeholder value : string) : M string :=
  emit (st_text_area label placeholder);; mret value.
Definition text_input (label placeholder value : string) : M string :=
  emit (st_text_input label placeholder);; mret value.
Definition button (label : string) (clicked : bool) : M bool :=
  emit (st_button label);; mret clicked.
Definition sidebar_text_input (label help : string) (default : pyval) (value : string) : M string :=
  emit (st_sidebar_text_input label help default);; mret value.
Definition sidebar_radio (label : string) (options : list string) (choice : feature) : M string :=
  emit (st_sidebar_radio label options);; mret (feature_label choice).

(** ** The script *)

(** Lines 17-18, run at the start of every run. *)
Definition module_init : M unit :=
  present ← session_contains "openai_api_key";
  if negb present then session_set "openai_api_key" PyNone else mret tt.

(** Lines 21-22: [st.session_state.openai_api_key is not None]. *)
Definition is_api_key_set : M bool :=
  v ← session_get "openai_api_key";
  mret (match v with PyNone => false | PyStr _ => true end).

(** Lines 60-67. *)
Definition get_random_inspiration (r : nat) : string := random_choice r quotes.

Section Program.

Variable provider : provider_t.

(** Calling a function decorated with [ell.complex]: the call is recorded
    and the provider decides its outcome. *)
Definition invoke (r : request) : M message :=
  fun s =>
    let s' := {| session_state := session_state s;
                 trace := trace s ++ [provider_call r] |} in
    match provider (calls_of (trace s)) r with
    | Returns m => (Ok m, s')
    | Raises e => (Raise e, s')
    end.

(** Lines 25-40. *)
Definition generate_career_guidance (interests skills goals : string) : M (option message) :=
  key_set ← is_api_key_set;
  if negb key_set then
    emit (st_error missing_key_msg);; mret None
  else
    v ← session_get "openai_api_key";
    client ← openai_Client v;
    let _generate (interests skills goals : string) : M message :=
      invoke {| req_model := "gpt-4o";
                req_api_key := client;
                req_format := FmtCareerSuggestion;
                req_prompt := "Based on interests: " +:+ interests +:+ ", skills: " +:+ skills
                              +:+ ", and goals: " +:+ goals +:+ ", suggest a suitable career." |} in
    try_except
      (r ← _generate interests skills goals; mret (Some r))
      (fun e => emit (st_error ("Error: " +:+ exn_str e));; mret None).

(** Lines 43-58. *)
Definition generate_interview_questions (role : string) : M (option message) :=
  key_set ← is_api_key_set;
  if negb key_set then
    emit (st_error missing_key_msg);; mret None
  else
    v ← session_get "openai_api_key";
    client ← openai_Client v;
    let _generate (role : string) : M message :=
      invoke {| req_model := "gpt-4o";
                req_api_key := client;
                req_format := FmtInterviewQuestions;
                req_prompt := "Generate 5 interview questions for the role of " +:+ role +:+ "." |} in
    try_except
      (r ← _generate role; mret (Some r))
      (fun e => emit (st_error ("Error: " +:+ exn_str e));; mret None).

(** Lines 131-157: the Career Guidance branch of [main]. *)
Definition career_guidance_view (inp : widgets) : M unit :=
  emit (st_header "🎯 Career Guidance Generator");;
  emit (st_columns 2);;
  interests ← text_area "💭 Your Interests"
    "e.g., technology, teaching, problem-solving" (w_interests inp);
  skills ← text_area "🛠️ Your Skills"
    "e.g., programming, communication, critical thinking" (w_skills inp);
  goals ← text_area "🎯 Your Goals"
    "e.g., starting a company, working with AI, teaching students" (w_goals inp);
  clicked ← button "✨ Generate Career Advice" (w_generate_career inp);
  (if (clicked : bool) then
     key_set ← is_api_key_set;
     if negb key_set then
       emit (st_error missing_key_msg)
     else if truthy_str interests && truthy_str skills && truthy_str goals then
       emit (st_spinner "Analyzing your profile...");;
       response ← generate_career_guidance interests skills goals;
       match response with
       | Some response =>
           emit (st_success "Analysis Complete!");;
           emit (st_subheader "🌟 Suggested Career Path");;
           c ← attr_career (parsed response);
           emit (st_info c);;
           emit (st_subheader "💡 Why This Path?");;
           r ← attr_reasons (parsed response);
           emit (st_write r)
       | None => mret tt
       end
     else
       emit (st_error fill_all_fields_msg)
   else mret tt);;
  emit (st_markdown "</div>" true).

(** Lines 159-176: the Interview Question Generator branch of [main]. *)
Definition interview_view (inp : widgets) : M unit :=
  emit (st_header "🎯 Interview Question Creator");;
  role ← text_input "💼 Job Role" "e.g., Data Scientist, Product Manager" (w_role inp);
  clicked ← button "🎲 Generate Questions" (w_generate_questions inp);
  (if (clicked : bool) then
     key_set ← is_api_key_set;
     if negb key_set then
       emit (st_error missing_key_msg)
     else if truthy_str role then
       emit (st_spinner "Creating tailored questions...");;
       response ← generate_interview_questions role;
       match response with
       | Some response =>
           emit (st_success "Questions Generated!");;
           qs ← attr_questions (parsed response);
           for_each (enumerate qs 1)
             (fun '(idx, question) =>
                emit (st_markdown ("**Q" +:+ pretty idx +:+ ".** " +:+ question) false))
       | None => mret tt
       end
     else
       emit (st_error enter_role_msg)
   else mret tt);;
  emit (st_markdown "</div>" true).

(** Lines 178-192: the About branch of [main]. *)
Definition about_view : M unit :=
  emit (st_header "ℹ️ About AI Career Mentor");;
  emit (st_write about_welcome);;
  emit (st_markdown about_steps false);;
  emit (st_markdown "</div>" true).

(** Lines 194-243: the How It Works branch of [main]. *)
Definition how_it_works_view (inp : widgets) : M unit :=
  emit (st_header "⚙️ How It Works");;
  emit (st_write "Let's see how simple it is to use ell with this example:");;
  emit (st_code code_sample "python");;
  clicked ← button "🚀 Run Example" (w_run_example inp);
  (if (clicked : bool) then
     key_set ← is_api_key_set;
     if negb key_set then
       emit (st_error missing_key_msg)
     else
       emit (st_markdown "---" false);;
       emit (st_markdown poem_text false);;
       emit (st_success "Yay! See how easy it is to create magic with ell? 🎉")
   else mret tt);;
  emit (st_markdown components_text false);;
  emit (st_markdown "---" false);;
  emit (st_markdown docs_pointer false);;
  emit (st_markdown "</div>" true).

(** Lines 69-243. *)
Definition main (inp : widgets) : M unit :=
  emit (st_markdown css_block true);;
  emit (st_title "🚀 AI Career Mentor");;
  emit (st_sidebar_title "✨ Configuration");;
  cur ← session_get "openai_api_key";
  default ← (if truthy cur then session_get "openai_api_key" else mret (PyStr EmptyString));
  api_key ← sidebar_text_input "Enter your OpenAI API key"
    "Get your API key from https://platform.openai.com/api-keys" default (w_api_key inp);
  (if truthy_str api_key then
     session_set "openai_api_key" (PyStr api_key);;
     emit (st_sidebar_success "✅ API key set successfully!")
   else
     emit (st_sidebar_warning "⚠️ Please enter your OpenAI API key to use the app features"));;
  emit (st_sidebar_markdown "---");;
  emit (st_sidebar_title "🔍 Navigation");;
  emit (st_markdown ("<div class=" +:+ dq +:+ "quote-box" +:+ dq +:+ ">"
                     +:+ get_random_inspiration (w_random inp) +:+ "</div>") true);;
  feature ← sidebar_radio "Select a Feature" feature_options (w_feature inp);
  if String.eqb feature "Career Guidance" then career_guidance_view inp
  else if String.eqb feature "Interview Question Generator" then interview_view inp
  else if String.eqb feature "About the App" then about_view
  else if String.eqb feature "How It Works" then how_it_works_view inp
  else mret tt.

(** One run of the script: the module-level code, then [main]. *)
Definition script (inp : widgets) : M unit := module_init;; main inp.

(** The state a run leaves behind, whether it ended normally or not. *)
Definition rerun (s : state) (inp : widgets) : state := (script inp s).2.

(** A session starts with an empty dictionary; every interaction is a run. *)
Definition fresh : state := {| session_state := ∅; trace := [] |}.
Definition session_after (runs : list widgets) : state := foldl rerun fresh runs.

End Program.

(** ** Vocabulary of the statements *)

(** The value under [openai_api_key], [None] when the key itself is absent. *)
Definition credential (ss : gmap string pyval) : pyval :=
  default PyNone (ss !! "openai_api_key").

(** The dictionary after lines 17-18. *)
Definition init_session (ss : gmap string pyval) : gmap string pyval :=
  match ss !! "openai_api_key" with
  | Some _ => ss
  | None => <["openai_api_key" := PyNone]> ss
  end.

(** The dictionary after lines 112-116. *)
Definition stored_after_sidebar (inp : widgets) (ss : gmap string pyval) : gmap string pyval :=
  if truthy_str (w_api_key inp)
  then <["openai_api_key" := PyStr (w_api_key inp)]> ss
  else ss.

(** The credential that the button handlers of a run see. *)
Definition credential_at_trigger (inp : widgets) (ss : gmap string pyval) : pyval :=
  if truthy_str (w_api_key inp) then PyStr (w_api_key inp) else credential ss.

(** The events of lines 71-129, for a run that starts with [v] stored. *)
Definition sidebar_events (v : pyval) (inp : widgets) : list event :=
  [ st_markdown css_block true;
    st_title "🚀 AI Career Mentor";
    st_sidebar_title "✨ Configuration";
    st_sidebar_text_input "Enter your OpenAI API key"
      "Get your API key from https://platform.openai.com/api-keys"
      (if truthy v then v else PyStr EmptyString);
    (if truthy_str (w_api_key inp)
     then st_sidebar_success "✅ API key set successfully!"
     else st_sidebar_warning "⚠️ Please enter your OpenAI API key to use the app features");
    st_sidebar_markdown "---";
    st_sidebar_title "🔍 Navigation";
    st_markdown ("<div class=" +:+ dq +:+ "quote-box" +:+ dq +:+ ">"
                 +:+ get_random_inspiration (w_random inp) +:+ "</div>") true;
    st_sidebar_radio "Select a Feature" feature_options ].

(** The branch of [main] selected by the radio. *)
Definition view_of (provider : provider_t) (inp : widgets) : M unit :=
  match w_feature inp with
  | CareerGuidance => career_guidance_view provider inp
  | InterviewQuestionGenerator => interview_view provider inp
  | AboutTheApp => about_view
  | HowItWorks => how_it_works_view inp
  end.

(** The form of each view, up to and including its button. *)
Definition career_form_events : list event :=
  [ st_header "🎯 Career Guidance Generator";
    st_columns 2;
    st_text_area "💭 Your Interests" "e.g., technology, teaching, problem-solving";
    st_text_area "🛠️ Your Skills" "e.g., programming, communication, critical thinking";
    st_text_area "🎯 Your Goals" "e.g., starting a company, working with AI, teaching students";
    st_button "✨ Generate Career Advice" ].

Definition interview_form_events : list event :=
  [ st_header "🎯 Interview Question Creator";
    st_text_input "💼 Job Role" "e.g., Data Scientist, Product Manager";
    st_button "🎲 Generate Questions" ].

Definition example_form_events : list event :=
  [ st_header "⚙️ How It Works";
    st_write "Let's see how simple it is to use ell with this example:";
    st_code code_sample "python";
    st_button "🚀 Run Example" ].

Definition example_footer_events : list event :=
  [ st_markdown components_text false;
    st_markdown "---" false;
    st_markdown docs_pointer false;
    st_markdown "</div>" true ].

(** The requests of the two gateway operations. *)
Definition career_request (k interests skills goals : string) : request :=
  {| req_model := "gpt-4o";
     req_api_key := k;
     req_format := FmtCareerSuggestion;
     req_prompt := "Based on interests: " +:+ interests +:+ ", skills: " +:+ skills
                   +:+ ", and goals: " +:+ goals +:+ ", suggest a suitable career." |}.

Definition interview_request (k role : string) : request :=
  {| req_model := "gpt-4o";
     req_api_key := k;
     req_format := FmtInterviewQuestions;
     req_prompt := "Generate 5 interview questions for the role of " +:+ role +:+ "." |}.

(** The line rendered for the question at position [i], counted from 0. *)
Definition question_line (i : nat) (question : string) : event :=
  st_markdown ("**Q" +:+ pretty (S i) +:+ ".** " +:+ question) false.

(** A computation that leaves the session dictionary as it found it. *)
Definition keeps_session {A} (m : M A) : Prop :=
  forall s, session_state (m s).2 = session_state s.

(** The sidebar key that is in force after a sequence of runs: the last
    non-empty one typed, or the one stored before them. *)
Definition latest_key (k : string) (runs : list widgets) : string :=
  foldl (fun k inp => if truthy_str (w_api_key inp) then w_api_key inp else k) k runs.

(** All fields of a structured result are non-empty. *)
Definition fields_nonempty (m : message) : Prop :=
  match parsed m with
  | ParsedCareer c => career c <> EmptyString /\ reasons c <> EmptyString
  | ParsedQuestions q => role q <> EmptyString /\ questions q <> []
  end.

(** The button of the selected view is the one just clicked, for the two
    views that generate. *)
Definition generation_triggered (inp : widgets) : bool :=
  match w_feature inp with
  | CareerGuidance => w_generate_career inp
  | InterviewQuestionGenerator => w_generate_questions inp
  | AboutTheApp | HowItWorks => false
  end.

(** The tests of lines 146 and 167. *)
Definition inputs_complete (inp : widgets) : bool :=
  match w_feature inp with
  | CareerGuidance =>
      truthy_str (w_interests inp) && truthy_str (w_skills inp) && truthy_str (w_goals inp)
  | InterviewQuestionGenerator => truthy_str (w_role inp)
  | AboutTheApp | HowItWorks => true
  end.

(** At least one required text field of the selected view is empty. *)
Definition some_required_field_empty (inp : widgets) : Prop :=
  match w_feature inp with
  | CareerGuidance =>
      w_interests inp = EmptyString \/ w_skills inp = EmptyString \/ w_goals inp = EmptyString
  | InterviewQuestionGenerator => w_role inp = EmptyString
  | AboutTheApp | HowItWorks => False
  end.

(** Every required text field of the selected view is non-empty. *)
Definition all_required_fields_filled (inp : widgets) : Prop :=
  match w_feature inp with
  | CareerGuidance =>
      w_interests inp <> EmptyString /\ w_skills inp <> EmptyString /\ w_goals inp <> EmptyString
  | InterviewQuestionGenerator => w_role inp <> EmptyString
  | AboutTheApp | HowItWorks => True
  end.

Definition form_events (f : feature) : list event :=
  match f with
  | CareerGuidance => career_form_events
  | InterviewQuestionGenerator => interview_form_events
  | AboutTheApp => []
  | HowItWorks => example_form_events
  end.

Definition incomplete_msg (f : feature) : string :=
  match f with
  | CareerGuidance => fill_all_fields_msg
  | _ => enter_role_msg
  end.

(** The request that a generating view sends with the credential [k]. *)
Definition request_of (k : string) (inp : widgets) : request :=
  match w_feature inp with
  | CareerGuidance => career_request k (w_interests inp) (w_skills inp) (w_goals inp)
  | _ => interview_request k (w_role inp)
  end.

(** The outbound calls of one run, from the dictionary it starts with. *)
Definition dispatched (inp : widgets) (ss : gmap string pyval) : list request :=
  match credential_at_trigger inp ss with
  | PyStr k =>
      if generation_triggered inp && inputs_complete inp then [request_of k inp] else []
  | PyNone => []
  end.

(** ** Concrete sessions, inputs and providers *)

Definition keyed : state :=
  {| session_state := {[ "openai_api_key" := PyStr "sk-test" ]}; trace := [] |}.

Definition career_click : widgets :=
  {| w_api_key := EmptyString; w_feature := CareerGuidance;
     w_interests := "AI"; w_skills := "coding"; w_goals := "startup";
     w_role := EmptyString;
     w_generate_career := true; w_generate_questions := false; w_run_example := false;
     w_random := 0 |}.

Definition career_click_no_goals : widgets :=
  {| w_api_key := EmptyString; w_feature := CareerGuidance;
     w_interests := "AI"; w_skills := "coding"; w_goals := EmptyString;
     w_role := EmptyString;
     w_generate_career := true; w_generate_questions := false; w_run_example := false;
     w_random := 0 |}.

Definition questions_click : widgets :=
  {| w_api_key := EmptyString; w_feature := InterviewQuestionGenerator;
     w_interests := EmptyString; w_skills := EmptyString; w_goals := EmptyString;
     w_role := "Data Scientist";
     w_generate_career := false; w_generate_questions := true; w_run_example := false;
     w_random := 1 |}.

Definition example_click : widgets :=
  {| w_api_key := EmptyString; w_feature := HowItWorks;
     w_interests := EmptyString; w_skills := EmptyString; w_goals := EmptyString;
     w_role := EmptyString;
     w_generate_career := false; w_generate_questions := false; w_run_example := true;
     w_random := 2 |}.

Definition ml_engineer : CareerSuggestion :=
  {| career := "ML Engineer"; reasons := "Strong technical fit" |}.

Definition three_questions : InterviewQuestions :=
  {| role := "Data Scientist"; questions := ["Q1"; "Q2"; "Q3"] |}.

(** A provider that answers every request in the declared shape. *)
Definition stub_provider : provider_t :=
  fun _ r =>
    match req_format r with
    | FmtCareerSuggestion => Returns {| parsed := ParsedCareer ml_engineer |}
    | FmtInterviewQuestions => Returns {| parsed := ParsedQuestions three_questions |}
    end.

(** A provider that rejects every request. *)
Definition rate_limited : py_exn :=
  {| exn_cls := RateLimitError; exn_str := "Rate limit reached" |}.
Definition failing_provider : provider_t := fun _ _ => Raises rate_limited.

(** A provider that answers in the declared shape with nothing in it. *)
Definition blank_career : message :=
  {| parsed := ParsedCareer {| career := EmptyString; reasons := EmptyString |} |}.
Definition blank_questions : message :=
  {| parsed := ParsedQuestions {| role := EmptyString; questions := [] |} |}.
Definition blank_provider : provider_t :=
  fun _ r =>
    match req_format r with
    | FmtCareerSuggestion => Returns blank_career
    | FmtInterviewQuestions => Returns blank_questions
    end.

(** ** Vocabulary of the further properties *)

(** The message has the shape that the request declared. *)
Definition shape_matches (f : response_format) (m : message) : bool :=
  match f, parsed m with
  | FmtCareerSuggestion, ParsedCareer _ => true
  | FmtInterviewQuestions, ParsedQuestions _ => true
  | _, _ => false
  end.

(** A provider that, whatever it was asked before, answers in the declared
    shape or fails with an [Exception]. *)
Definition well_behaved (provider : provider_t) : Prop :=
  forall history r,
    match provider history r with
    | Returns m => shape_matches (req_format r) m = true
    | Raises e => is_Exception (exn_cls e) = true
    end.

(** The text of the spinner of a generating view (lines 147 and 168). *)
Definition spinner_text (f : feature) : string :=
  match f with
  | CareerGuidance => "Analyzing your profile..."
  | _ => "Creating tailored questions..."
  end.

(** The button of the selected view is the one just clicked. *)
Definition button_clicked (inp : widgets) : bool :=
  match w_feature inp with
  | CareerGuidance => w_generate_career inp
  | InterviewQuestionGenerator => w_generate_questions inp
  | AboutTheApp => false
  | HowItWorks => w_run_example inp
  end.

(** The events of the About view. *)
Definition about_events : list event :=
  [ st_header "ℹ️ About AI Career Mentor";
    st_write about_welcome;
    st_markdown about_steps false;
    st_markdown "</div>" true ].

(** What a view draws when its button is not clicked. *)
Definition idle_events (f : feature) : list event :=
  match f with
  | CareerGuidance => career_form_events ++ [st_markdown "</div>" true]
  | InterviewQuestionGenerator => interview_form_events ++ [st_markdown "</div>" true]
  | AboutTheApp => about_events
  | HowItWorks => example_form_events ++ example_footer_events
  end.

(** A request of one of the two gateway operations, with a non-empty
    credential and non-empty inputs. *)
Definition generation_request (r : request) : Prop :=
  exists k, k <> EmptyString /\
    ((exists interests skills goals,
        interests <> EmptyString /\ skills <> EmptyString /\ goals <> EmptyString
        /\ r = career_request k interests skills goals)
     \/ (exists role, role <> EmptyString /\ r = interview_request k role)).

(** A computation that only appends to the trace. *)
Definition appends_only {A} (m : M A) : Prop :=
  forall s, exists evs, trace (m s).2 = trace s ++ evs.

(** The feedback under the sidebar field (lines 112-116). *)
Definition sidebar_feedback (inp : widgets) : event :=
  if truthy_str (w_api_key inp)
  then st_sidebar_success "✅ API key set successfully!"
  else st_sidebar_warning "⚠️ Please enter your OpenAI API key to use the app features".

(** The quote box of a run (line 122). *)
Definition quote_box (inp : widgets) : event :=
  st_markdown ("<div class=" +:+ dq +:+ "quote-box" +:+ dq +:+ ">"
               +:+ get_random_inspiration (w_random inp) +:+ "</div>") true.

(** A fault that [except Exception] does not catch, a provider that raises
    it, and a run that only types a key into the sidebar. *)
Definition interrupted : py_exn :=
  {| exn_cls := KeyboardInterrupt; exn_str := EmptyString |}.
Definition interrupting_provider : provider_t := fun _ _ => Raises interrupted.

Definition type_key : widgets :=
  {| w_api_key := "sk-live"; w_feature := AboutTheApp;
     w_interests := EmptyString; w_skills := EmptyString; w_goals := EmptyString;
     w_role := EmptyString;
     w_generate_career := false; w_generate_questions := false; w_run_example := false;
     w_random := 3 |}.

(** The same inputs with another text in the sidebar field. *)
Definition set_api_key_field (k : string) (inp : widgets) : widgets :=
  {| w_api_key := k; w_feature := w_feature inp;
     w_interests := w_interests inp; w_skills := w_skills inp; w_goals := w_goals inp;
     w_role := w_role inp;
     w_generate_career := w_generate_career inp;
     w_generate_questions := w_generate_questions inp;
     w_run_example := w_run_example inp;
     w_random := w_random inp |}.

(** ** Running the monad *)

Ltac run1 :=
  unfold mbind, M_bind, bind, mret, M_ret, ret, raise, emit,
    session_get, session_set, session_contains,
    text_area, text_input, button, sidebar_text_input, sidebar_radio,
    is_api_key_set, try_except, invoke, openai_Client;
  cbn [session_state trace parsed fst snd negb andb].
Ltac run := repeat (progress run1).
Ltac exec H := repeat (progress (run; rewrite ?H)).

Ltac tidy := rewrite <- ?app_assoc; cbn [app].



Lemma lookup_init_session (ss : gmap string pyval) :
  init_session ss !! "openai_api_key" = Some (credential ss).
Proof.
  unfold init_session, credential.
  destruct (ss !! "openai_api_key") as [v|] eqn:E; cbn.
  - exact E.
  - apply lookup_insert_eq.
Qed.

Lemma lookup_stored_after_sidebar inp (ss : gmap string pyval) v :
  ss !! "openai_api_key" = Some v ->
  stored_after_sidebar inp ss !! "openai_api_key"
  = Some (if truthy_str (w_api_key inp) then PyStr (w_api_key inp) else v).
Proof.
  intros H. unfold stored_after_sidebar.
  destruct (truthy_str (w_api_key inp)); [apply lookup_insert_eq | exact H].
Qed.

Lemma lookup_at_trigger inp (ss : gmap string pyval) :
  stored_after_sidebar inp (init_session ss) !! "openai_api_key"
  = Some (credential_at_trigger inp ss).
Proof.
  unfold credential_at_trigger.
  apply lookup_stored_after_sidebar, lookup_init_session.
Qed.

Lemma calls_of_app (tr1 tr2 : list event) :
  calls_of (tr1 ++ tr2) = calls_of tr1 ++ calls_of tr2.
Proof. apply omap_app. Qed.

Lemma calls_of_sidebar_events v inp : calls_of (sidebar_events v inp) = [].
Proof. unfold sidebar_events. now destruct (truthy_str (w_api_key inp)). Qed.

Lemma calls_of_form_events f : calls_of (form_events f) = [].
Proof. now destruct f. Qed.

Lemma calls_of_career_form_events : calls_of career_form_events = [].
Proof. reflexivity. Qed.

Lemma calls_of_interview_form_events : calls_of interview_form_events = [].
Proof. reflexivity. Qed.

Lemma calls_of_example_form_events : calls_of example_form_events = [].
Proof. reflexivity. Qed.

Lemma calls_of_example_footer_events : calls_of example_footer_events = [].
Proof. reflexivity. Qed.

Lemma calls_of_question_lines (qs : list string) :
  calls_of (imap question_line qs) = [].
Proof.
  unfold calls_of.
  assert (G : forall (f : nat -> string -> event) (l : list string),
             (forall i q, exists b h, f i q = st_markdown b h) ->
             omap (fun e => match e with provider_call r => Some r | _ => None end)
                  (imap f l) = []).
  { intros f l. revert f. induction l as [|q l IH]; intros f Hf; cbn; [reflexivity|].
    destruct (Hf 0 q) as (b & h & ->). apply IH. intros i q'. apply Hf. }
  apply G. intros i q. unfold question_line. eauto.
Qed.

Create Rewrite HintDb calls.
#[local] Hint Rewrite calls_of_sidebar_events calls_of_form_events calls_of_career_form_events
  calls_of_interview_form_events calls_of_example_form_events
  calls_of_example_footer_events calls_of_question_lines : calls.

(** The calls of a trace written as a concatenation of known pieces. *)
Ltac history :=
  rewrite ?calls_of_app; autorewrite with calls;
  repeat match goal with
    | |- context [calls_of (?x :: ?l)] =>
        let r := eval cbv in (calls_of (x :: l)) in
        change (calls_of (x :: l)) with r
    end;
  cbn [app]; rewrite ?app_nil_r.

(** Lines 71-129 on a dictionary that has the key. *)
Lemma main_run provider inp (ss : gmap string pyval) tr v :
  ss !! "openai_api_key" = Some v ->
  main provider inp {| session_state := ss; trace := tr |} =
  view_of provider inp {| session_state := stored_after_sidebar inp ss;
                          trace := tr ++ sidebar_events v inp |}.
Proof.
  intros H. unfold main, view_of, stored_after_sidebar, sidebar_events.
  run. rewrite H.
  destruct (truthy v); run; rewrite ?H;
    destruct (truthy_str (w_api_key inp)); run;
    destruct (w_feature inp); cbn [feature_label String.eqb Ascii.eqb Bool.eqb]; tidy; reflexivity.
Qed.

(** One run of the script on any state. *)
Lemma script_run provider inp (ss : gmap string pyval) tr :
  script provider inp {| session_state := ss; trace := tr |} =
  view_of provider inp
    {| session_state := stored_after_sidebar inp (init_session ss);
       trace := tr ++ sidebar_events (credential ss) inp |}.
Proof.
  rewrite <- (main_run provider inp _ tr _ (lookup_init_session ss)).
  unfold script, module_init, init_session. run.
  destruct (ss !! "openai_api_key"); reflexivity.
Qed.

(** ** The gateway *)

Lemma generate_career_guidance_no_key provider interests skills goals
    (ss : gmap string pyval) tr :
  ss !! "openai_api_key" = Some PyNone ->
  generate_career_guidance provider interests skills goals
    {| session_state := ss; trace := tr |}
  = (Ok None, {| session_state := ss; trace := tr ++ [st_error missing_key_msg] |}).
Proof. intros H. unfold generate_career_guidance. exec H. reflexivity. Qed.

Lemma generate_interview_questions_no_key provider role
    (ss : gmap string pyval) tr :
  ss !! "openai_api_key" = Some PyNone ->
  generate_interview_questions provider role
    {| session_state := ss; trace := tr |}
  = (Ok None, {| session_state := ss; trace := tr ++ [st_error missing_key_msg] |}).
Proof. intros H. unfold generate_interview_questions. exec H. reflexivity. Qed.

Lemma generate_career_guidance_run provider interests skills goals
    (ss : gmap string pyval) tr k :
  ss !! "openai_api_key" = Some (PyStr k) ->
  let req := career_request k interests skills goals in
  generate_career_guidance provider interests skills goals
    {| session_state := ss; trace := tr |}
  = match provider (calls_of tr) req with
    | Returns m =>
        (Ok (Some m), {| session_state := ss; trace := tr ++ [provider_call req] |})
    | Raises e =>
        if is_Exception (exn_cls e)
        then (Ok None, {| session_state := ss;
                          trace := tr ++ [provider_call req; st_error ("Error: " +:+ exn_str e)] |})
        else (Raise e, {| session_state := ss; trace := tr ++ [provider_call req] |})
    end.
Proof.
  intros H req. unfold generate_career_guidance. exec H.
  fold (career_request k interests skills goals). fold req.
  destruct (provider (calls_of tr) req) as [m|e]; [reflexivity|].
  destruct (is_Exception (exn_cls e)); run; tidy; reflexivity.
Qed.

Lemma generate_interview_questions_run provider role (ss : gmap string pyval) tr k :
  ss !! "openai_api_key" = Some (PyStr k) ->
  let req := interview_request k role in
  generate_interview_questions provider role
    {| session_state := ss; trace := tr |}
  = match provider (calls_of tr) req with
    | Returns m =>
        (Ok (Some m), {| session_state := ss; trace := tr ++ [provider_call req] |})
    | Raises e =>
        if is_Exception (exn_cls e)
        then (Ok None, {| session_state := ss;
                          trace := tr ++ [provider_call req; st_error ("Error: " +:+ exn_str e)] |})
        else (Raise e, {| session_state := ss; trace := tr ++ [provider_call req] |})
    end.
Proof.
  intros H req. unfold generate_interview_questions. exec H.
  fold (interview_request k role). fold req.
  destruct (provider (calls_of tr) req) as [m|e]; [reflexivity|].
  destruct (is_Exception (exn_cls e)); run; tidy; reflexivity.
Qed.

(** ** The loop over the questions *)

Lemma for_each_emit {A} (l : list A) (body : A -> M unit) (f : A -> event)
    (ss : gmap string pyval) tr :
  (forall x, body x = emit (f x)) ->
  for_each l body {| session_state := ss; trace := tr |}
  = (Ok tt, {| session_state := ss; trace := tr ++ map f l |}).
Proof.
  intros Hbody. revert tr.
  induction l as [|x l IH]; intros tr; cbn [for_each map].
  - run. now rewrite app_nil_r.
  - run. rewrite Hbody. run. rewrite IH. tidy. reflexivity.
Qed.

Lemma map_enumerate {A B} (g : nat -> A -> B) (l : list A) (start : nat) :
  map (fun '(idx, x) => g idx x) (enumerate l start)
  = imap (fun i x => g (start + i) x) l.
Proof.
  revert start. induction l as [|x l IH]; intros start; cbn [enumerate map imap].
  - reflexivity.
  - rewrite Nat.add_0_r, IH. f_equal.
    apply imap_ext. intros i y _. cbn. f_equal. lia.
Qed.

(** ** The views *)

Lemma career_view_idle provider inp (ss : gmap string pyval) tr :
  w_generate_career inp = false ->
  career_guidance_view provider inp {| session_state := ss; trace := tr |}
  = (Ok tt, {| session_state := ss;
               trace := tr ++ career_form_events ++ [st_markdown "</div>" true] |}).
Proof.
  intros Hc. unfold career_guidance_view, career_form_events.
  run. rewrite Hc. run. tidy. reflexivity.
Qed.

Lemma career_view_no_key provider inp (ss : gmap string pyval) tr :
  ss !! "openai_api_key" = Some PyNone ->
  w_generate_career inp = true ->
  career_guidance_view provider inp {| session_state := ss; trace := tr |}
  = (Ok tt, {| session_state := ss;
               trace := tr ++ career_form_events
                           ++ [st_error missing_key_msg; st_markdown "</div>" true] |}).
Proof.
  intros H Hc. unfold career_guidance_view, career_form_events.
  run. rewrite Hc. exec H. tidy. reflexivity.
Qed.

Lemma career_view_incomplete provider inp (ss : gmap string pyval) tr k :
  ss !! "openai_api_key" = Some (PyStr k) ->
  w_generate_career inp = true ->
  truthy_str (w_interests inp) && truthy_str (w_skills inp) && truthy_str (w_goals inp) = false ->
  career_guidance_view provider inp {| session_state := ss; trace := tr |}
  = (Ok tt, {| session_state := ss;
               trace := tr ++ career_form_events
                           ++ [st_error fill_all_fields_msg; st_markdown "</div>" true] |}).
Proof.
  intros H Hc Hi. unfold career_guidance_view, career_form_events.
  run. rewrite Hc. exec H. rewrite Hi. run. tidy. reflexivity.
Qed.

Lemma career_view_dispatch provider inp (ss : gmap string pyval) tr k :
  ss !! "openai_api_key" = Some (PyStr k) ->
  w_generate_career inp = true ->
  truthy_str (w_interests inp) && truthy_str (w_skills inp) && truthy_str (w_goals inp) = true ->
  let req := career_request k (w_interests inp) (w_skills inp) (w_goals inp) in
  let tr' := tr ++ career_form_events
                ++ [st_spinner "Analyzing your profile..."; provider_call req] in
  career_guidance_view provider inp {| session_state := ss; trace := tr |}
  = match provider (calls_of tr) req with
    | Returns m =>
        match parsed m with
        | ParsedCareer c =>
            (Ok tt, {| session_state := ss;
                       trace := tr' ++ [ st_success "Analysis Complete!";
                                         st_subheader "🌟 Suggested Career Path";
                                         st_info (career c);
                                         st_subheader "💡 Why This Path?";
                                         st_write (reasons c);
                                         st_markdown "</div>" true ] |})
        | ParsedQuestions _ =>
            (Raise (no_attribute "InterviewQuestions" "career"),
             {| session_state := ss;
                trace := tr' ++ [ st_success "Analysis Complete!";
                                  st_subheader "🌟 Suggested Career Path" ] |})
        end
    | Raises e =>
        if is_Exception (exn_cls e)
        then (Ok tt, {| session_state := ss;
                        trace := tr' ++ [ st_error ("Error: " +:+ exn_str e);
                                          st_markdown "</div>" true ] |})
        else (Raise e, {| session_state := ss; trace := tr' |})
    end.
Proof.
  intros H Hc Hi req tr'. unfold career_guidance_view.
  run. rewrite Hc. exec H. rewrite Hi. run.
  rewrite (generate_career_guidance_run provider _ _ _ ss _ k H).
  fold req. history.
  subst tr'. unfold career_form_events.
  destruct (provider (calls_of tr) req) as [m|e].
  - destruct m as [[c|q]]; unfold attr_career, attr_reasons; run; tidy; reflexivity.
  - destruct (is_Exception (exn_cls e)); run; tidy; reflexivity.
Qed.

Lemma interview_view_idle provider inp (ss : gmap string pyval) tr :
  w_generate_questions inp = false ->
  interview_view provider inp {| session_state := ss; trace := tr |}
  = (Ok tt, {| session_state := ss;
               trace := tr ++ interview_form_events ++ [st_markdown "</div>" true] |}).
Proof.
  intros Hc. unfold interview_view, interview_form_events.
  run. rewrite Hc. run. tidy. reflexivity.
Qed.

Lemma interview_view_no_key provider inp (ss : gmap string pyval) tr :
  ss !! "openai_api_key" = Some PyNone ->
  w_generate_questions inp = true ->
  interview_view provider inp {| session_state := ss; trace := tr |}
  = (Ok tt, {| session_state := ss;
               trace := tr ++ interview_form_events
                           ++ [st_error missing_key_msg; st_markdown "</div>" true] |}).
Proof.
  intros H Hc. unfold interview_view, interview_form_events.
  run. rewrite Hc. exec H. tidy. reflexivity.
Qed.

Lemma interview_view_incomplete provider inp (ss : gmap string pyval) tr k :
  ss !! "openai_api_key" = Some (PyStr k) ->
  w_generate_questions inp = true ->
  truthy_str (w_role inp) = false ->
  interview_view provider inp {| session_state := ss; trace := tr |}
  = (Ok tt, {| session_state := ss;
               trace := tr ++ interview_form_events
                           ++ [st_error enter_role_msg; st_markdown "</div>" true] |}).
Proof.
  intros H Hc Hi. unfold interview_view, interview_form_events.
  run. rewrite Hc. exec H. rewrite Hi. run. tidy. reflexivity.
Qed.

Lemma interview_view_dispatch provider inp (ss : gmap string pyval) tr k :
  ss !! "openai_api_key" = Some (PyStr k) ->
  w_generate_questions inp = true ->
  truthy_str (w_role inp) = true ->
  let req := interview_request k (w_role inp) in
  let tr' := tr ++ interview_form_events
                ++ [st_spinner "Creating tailored questions..."; provider_call req] in
  interview_view provider inp {| session_state := ss; trace := tr |}
  = match provider (calls_of tr) req with
    | Returns m =>
        match parsed m with
        | ParsedQuestions q =>
            (Ok tt, {| session_state := ss;
                       trace := tr' ++ [st_success "Questions Generated!"]
                                    ++ imap question_line (questions q)
                                    ++ [st_markdown "</div>" true] |})
        | ParsedCareer _ =>
            (Raise (no_attribute "CareerSuggestion" "questions"),
             {| session_state := ss;
                trace := tr' ++ [st_success "Questions Generated!"] |})
        end
    | Raises e =>
        if is_Exception (exn_cls e)
        then (Ok tt, {| session_state := ss;
                        trace := tr' ++ [ st_error ("Error: " +:+ exn_str e);
                                          st_markdown "</div>" true ] |})
        else (Raise e, {| session_state := ss; trace := tr' |})
    end.
Proof.
  intros H Hc Hi req tr'. unfold interview_view.
  run. rewrite Hc. exec H. rewrite Hi. run.
  rewrite (generate_interview_questions_run provider _ ss _ k H).
  fold req. history.
  subst tr'. unfold interview_form_events.
  destruct (provider (calls_of tr) req) as [m|e].
  - destruct m as [[c|q]]; unfold attr_questions; run; tidy; [reflexivity|].
    rewrite (for_each_emit _ _ (fun '(idx, question) =>
               st_markdown ("**Q" +:+ pretty idx +:+ ".** " +:+ question) false))
      by (intros [idx question]; reflexivity).
    rewrite (map_enumerate (fun idx question =>
               st_markdown ("**Q" +:+ pretty idx +:+ ".** " +:+ question) false)).
    run. tidy. reflexivity.
  - destruct (is_Exception (exn_cls e)); run; tidy; reflexivity.
Qed.

Lemma about_view_run (ss : gmap string pyval) tr :
  about_view {| session_state := ss; trace := tr |}
  = (Ok tt, {| session_state := ss;
               trace := tr ++ [ st_header "ℹ️ About AI Career Mentor";
                                st_write about_welcome;
                                st_markdown about_steps false;
                                st_markdown "</div>" true ] |}).
Proof. unfold about_view. run. tidy. reflexivity. Qed.

Lemma how_it_works_view_idle inp (ss : gmap string pyval) tr :
  w_run_example inp = false ->
  how_it_works_view inp {| session_state := ss; trace := tr |}
  = (Ok tt, {| session_state := ss;
               trace := tr ++ example_form_events ++ example_footer_events |}).
Proof.
  intros Hc. unfold how_it_works_view, example_form_events, example_footer_events.
  run. rewrite Hc. run. tidy. reflexivity.
Qed.

Lemma how_it_works_view_run inp (ss : gmap string pyval) tr v :
  ss !! "openai_api_key" = Some v ->
  w_run_example inp = true ->
  how_it_works_view inp {| session_state := ss; trace := tr |}
  = (Ok tt, {| session_state := ss;
               trace := tr ++ example_form_events
                 ++ match v with
                    | PyNone => [ st_error missing_key_msg ]
                    | PyStr _ =>
                        [ st_markdown "---" false;
                          st_markdown poem_text false;
                          st_success "Yay! See how easy it is to create magic with ell? 🎉" ]
                    end
                 ++ example_footer_events |}).
Proof.
  intros H Hc. unfold how_it_works_view, example_form_events, example_footer_events.
  run. rewrite Hc. exec H. destruct v; run; tidy; reflexivity.
Qed.

(** ** What never touches the session dictionary *)

Create HintDb frame.

Lemma keeps_ret {A} (a : A) : keeps_session (mret a : M A).
Proof. intros s. reflexivity. Qed.

Lemma keeps_raise {A} e : keeps_session (raise e : M A).
Proof. intros s. reflexivity. Qed.

Lemma keeps_emit e : keeps_session (emit e).
Proof. intros s. reflexivity. Qed.

Lemma keeps_session_get key : keeps_session (session_get key).
Proof. intros s. unfold session_get. destruct (session_state s !! key); reflexivity. Qed.

Lemma keeps_invoke provider r : keeps_session (invoke provider r).
Proof. intros s. unfold invoke. destruct (provider _ r); reflexivity. Qed.

Lemma keeps_bind {A B} (m : M A) (k : A -> M B) :
  keeps_session m -> (forall a, keeps_session (k a)) -> keeps_session (m ≫= k).
Proof.
  intros Hm Hk s. unfold mbind, M_bind, bind.
  specialize (Hm s). destruct (m s) as [[a|e] s']; cbn in *.
  - now rewrite Hk.
  - exact Hm.
Qed.

Lemma keeps_try_except {A} (body : M A) handler :
  keeps_session body -> (forall e, keeps_session (handler e)) ->
  keeps_session (try_except body handler).
Proof.
  intros Hb Hh s. unfold try_except.
  specialize (Hb s). destruct (body s) as [[a|e] s']; cbn in *; [exact Hb|].
  destruct (is_Exception (exn_cls e)); cbn; [now rewrite Hh | exact Hb].
Qed.

Lemma keeps_for_each {A} (l : list A) (body : A -> M unit) :
  (forall x, keeps_session (body x)) -> keeps_session (for_each l body).
Proof.
  intros Hb. induction l as [|x l IH]; cbn [for_each].
  - apply keeps_ret.
  - apply keeps_bind; auto.
Qed.

#[local] Hint Resolve keeps_ret keeps_raise keeps_emit keeps_session_get keeps_invoke : frame.

Ltac frame :=
  repeat first
    [ solve [auto with frame]
    | apply keeps_bind; [|intros ?]
    | apply keeps_try_except; [|intros ?]
    | apply keeps_for_each; intros [? ?]
    | match goal with
      | |- keeps_session (if ?b then _ else _) => destruct b
      | |- keeps_session (match ?x with _ => _ end) => destruct x
      end ].

Lemma keeps_is_api_key_set : keeps_session is_api_key_set.
Proof. unfold is_api_key_set. frame. Qed.

Lemma keeps_generate_career_guidance provider interests skills goals :
  keeps_session (generate_career_guidance provider interests skills goals).
Proof.
  pose proof keeps_is_api_key_set.
  unfold generate_career_guidance, openai_Client. frame.
Qed.

Lemma keeps_generate_interview_questions provider role :
  keeps_session (generate_interview_questions provider role).
Proof.
  pose proof keeps_is_api_key_set.
  unfold generate_interview_questions, openai_Client. frame.
Qed.

Lemma keeps_view_of provider inp : keeps_session (view_of provider inp).
Proof.
  pose proof keeps_is_api_key_set.
  pose proof (keeps_generate_career_guidance provider).
  pose proof (keeps_generate_interview_questions provider).
  unfold view_of, career_guidance_view, interview_view, about_view, how_it_works_view,
    text_area, text_input, button, attr_career, attr_reasons, attr_questions.
  destruct (w_feature inp); frame.
Qed.

(** The dictionary after a run, however the run ends. *)
Lemma session_state_rerun provider s inp :
  session_state (rerun provider s inp)
  = stored_after_sidebar inp (init_session (session_state s)).
Proof.
  unfold rerun. destruct s as [ss tr]. rewrite script_run.
  now rewrite keeps_view_of.
Qed.

Lemma lookup_rerun provider s inp :
  session_state (rerun provider s inp) !! "openai_api_key"
  = Some (credential_at_trigger inp (session_state s)).
Proof. rewrite session_state_rerun. apply lookup_at_trigger. Qed.

Lemma truthy_str_nonempty (k : string) : truthy_str k = true <-> k <> EmptyString.
Proof. destruct k; cbn; split; congruence. Qed.

Lemma session_after_snoc provider runs inp :
  session_after provider (runs ++ [inp])
  = rerun provider (session_after provider runs) inp.
Proof. unfold session_after. now rewrite foldl_app. Qed.

(** Only non-empty keys are ever stored. *)
Lemma session_after_nonempty provider runs k :
  session_state (session_after provider runs) !! "openai_api_key" = Some (PyStr k) ->
  k <> EmptyString.
Proof.
  revert k. induction runs as [|inp runs IH] using rev_ind; intros k.
  - cbn. rewrite lookup_empty. discriminate.
  - rewrite session_after_snoc, lookup_rerun. unfold credential_at_trigger, credential.
    destruct (truthy_str (w_api_key inp)) eqn:E.
    + intros [= <-]. now apply truthy_str_nonempty.
    + destruct (session_state (session_after provider runs) !! "openai_api_key")
        as [v|] eqn:L; cbn; [|discriminate].
      intros [= ->]. now apply IH.
Qed.

(** ** The outbound calls of a run *)

Lemma truthy_str_empty (k : string) : truthy_str k = false <-> k = EmptyString.
Proof. destruct k; cbn; split; congruence. Qed.

Lemma inputs_complete_false inp :
  generation_triggered inp = true ->
  inputs_complete inp = false <-> some_required_field_empty inp.
Proof.
  unfold generation_triggered, inputs_complete, some_required_field_empty.
  destruct (w_feature inp); intros Hc; try discriminate.
  - rewrite !andb_false_iff, !truthy_str_empty. tauto.
  - apply truthy_str_empty.
Qed.

Lemma inputs_complete_true inp :
  inputs_complete inp = true <-> all_required_fields_filled inp.
Proof.
  unfold inputs_complete, all_required_fields_filled.
  destruct (w_feature inp); rewrite ?andb_true_iff, ?truthy_str_nonempty; tauto.
Qed.

Ltac settle := cbn [snd trace andb]; history; rewrite ?app_nil_r; reflexivity.

(** A run calls the provider exactly when a generating view is triggered
    with a credential and complete inputs, and then once. *)
Lemma calls_of_rerun provider s inp :
  calls_of (trace (rerun provider s inp))
  = calls_of (trace s) ++ dispatched inp (session_state s).
Proof.
  destruct s as [ss tr]. unfold rerun. rewrite script_run. cbn [session_state trace].
  pose proof (lookup_at_trigger inp ss) as L.
  unfold dispatched, view_of, generation_triggered, inputs_complete, request_of.
  destruct (w_feature inp).
  - destruct (w_generate_career inp) eqn:Hc.
    + destruct (credential_at_trigger inp ss) as [|k].
      * rewrite (career_view_no_key _ _ _ _ L Hc). settle.
      * destruct (truthy_str (w_interests inp) && truthy_str (w_skills inp)
                  && truthy_str (w_goals inp)) eqn:Hi.
        -- rewrite (career_view_dispatch _ _ _ _ _ L Hc Hi).
           destruct (provider _ _) as [[[c|q]]|e]; cbn [parsed];
             [ | | destruct (is_Exception (exn_cls e))]; settle.
        -- rewrite (career_view_incomplete _ _ _ _ _ L Hc Hi). settle.
    + rewrite (career_view_idle _ _ _ _ Hc).
      destruct (credential_at_trigger inp ss); settle.
  - destruct (w_generate_questions inp) eqn:Hc.
    + destruct (credential_at_trigger inp ss) as [|k].
      * rewrite (interview_view_no_key _ _ _ _ L Hc). settle.
      * destruct (truthy_str (w_role inp)) eqn:Hi.
        -- rewrite (interview_view_dispatch _ _ _ _ _ L Hc Hi).
           destruct (provider _ _) as [[[c|q]]|e]; cbn [parsed];
             [ | | destruct (is_Exception (exn_cls e))]; settle.
        -- rewrite (interview_view_incomplete _ _ _ _ _ L Hc Hi). settle.
    + rewrite (interview_view_idle _ _ _ _ Hc).
      destruct (credential_at_trigger inp ss); settle.
  - rewrite about_view_run.
    destruct (credential_at_trigger inp ss); settle.
  - destruct (w_run_example inp) eqn:Hc.
    + rewrite (how_it_works_view_run _ _ _ _ L Hc).
      destruct (credential_at_trigger inp ss); settle.
    + rewrite (how_it_works_view_idle _ _ _ Hc).
      destruct (credential_at_trigger inp ss); settle.
Qed.

(** ** Provider faults *)

(** C1. For every stored credential and every input, when the provider
    invocation raises a fault that is an [Exception] (network failure,
    malformed response, authentication rejection, rate limit), each of
    [generate_career_guidance] and [generate_interview_questions] catches it,
    displays the message ["Error: " + str(e)] with [st.error] and returns
    [None]; the operation ends normally, so nothing propagates to its caller. *)
Theorem provider_fault_is_caught provider (ss : gmap string pyval) tr k e
    interests skills goals role :
  ss !! "openai_api_key" = Some (PyStr k) ->
  is_Exception (exn_cls e) = true ->
  (provider (calls_of tr) (career_request k interests skills goals) = Raises e ->
   generate_career_guidance provider interests skills goals
     {| session_state := ss; trace := tr |}
   = (Ok None,
      {| session_state := ss;
         trace := tr ++ [ provider_call (career_request k interests skills goals);
                          st_error ("Error: " +:+ exn_str e) ] |}))
  /\
  (provider (calls_of tr) (interview_request k role) = Raises e ->
   generate_interview_questions provider role
     {| session_state := ss; trace := tr |}
   = (Ok None,
      {| session_state := ss;
         trace := tr ++ [ provider_call (interview_request k role);
                          st_error ("Error: " +:+ exn_str e) ] |})).
Proof.
  intros H He. split; intros Hp.
  - rewrite (generate_career_guidance_run provider _ _ _ ss tr k H).
    cbv zeta. now rewrite Hp, He.
  - rewrite (generate_interview_questions_run provider _ ss tr k H).
    cbv zeta. now rewrite Hp, He.
Qed.

Lemma provider_fault_is_caught_witness :
  generate_career_guidance failing_provider "AI" "coding" "startup" keyed
  = (Ok None,
     {| session_state := session_state keyed;
        trace := [ provider_call (career_request "sk-test" "AI" "coding" "startup");
                   st_error "Error: Rate limit reached" ] |})
  /\
  generate_interview_questions failing_provider "Data Scientist" keyed
  = (Ok None,
     {| session_state := session_state keyed;
        trace := [ provider_call (interview_request "sk-test" "Data Scientist");
                   st_error "Error: Rate limit reached" ] |}).
Proof.
  assert (L : session_state keyed !! "openai_api_key" = Some (PyStr "sk-test"))
    by (vm_compute; reflexivity).
  destruct (provider_fault_is_caught failing_provider (session_state keyed) []
              "sk-test" rate_limited "AI" "coding" "startup" "Data Scientist"
              L eq_refl) as [Hc Hq].
  split; [apply Hc | apply Hq]; reflexivity.
Defined.

(** ** Guards of the button handlers *)

(** C2. In every state in which no credential is stored when the button is
    handled, triggering Generate Career Advice or Generate Questions displays
    the missing-credential error and makes no provider call, whatever the
    text inputs hold; called directly in that state, each gateway operation
    also displays the error, returns [None] and makes no call. *)
Theorem no_credential_no_call provider s inp :
  credential_at_trigger inp (session_state s) = PyNone ->
  generation_triggered inp = true ->
  let ss' := stored_after_sidebar inp (init_session (session_state s)) in
  script provider inp s
  = (Ok tt,
     {| session_state := ss';
        trace := trace s ++ sidebar_events (credential (session_state s)) inp
                         ++ form_events (w_feature inp)
                         ++ [ st_error missing_key_msg; st_markdown "</div>" true ] |})
  /\ calls_of (trace (rerun provider s inp)) = calls_of (trace s)
  /\ (forall interests skills goals tr,
        generate_career_guidance provider interests skills goals
          {| session_state := ss'; trace := tr |}
        = (Ok None, {| session_state := ss'; trace := tr ++ [st_error missing_key_msg] |}))
  /\ (forall role tr,
        generate_interview_questions provider role
          {| session_state := ss'; trace := tr |}
        = (Ok None, {| session_state := ss'; trace := tr ++ [st_error missing_key_msg] |})).
Proof.
  intros Hcred Htrig ss'. destruct s as [ss tr]. cbn [session_state trace] in *.
  pose proof (lookup_at_trigger inp ss) as L. rewrite Hcred in L. fold ss' in L.
  split; [|split; [|split]].
  - rewrite script_run. fold ss'.
    unfold view_of, generation_triggered, form_events in *.
    destruct (w_feature inp); try discriminate.
    + rewrite (career_view_no_key _ _ _ _ L Htrig). now rewrite <- app_assoc.
    + rewrite (interview_view_no_key _ _ _ _ L Htrig). now rewrite <- app_assoc.
  - rewrite calls_of_rerun. unfold dispatched. cbn [session_state].
    rewrite Hcred. apply app_nil_r.
  - intros. now apply generate_career_guidance_no_key.
  - intros. now apply generate_interview_questions_no_key.
Qed.

Lemma no_credential_no_call_witness :
  credential_at_trigger career_click (session_state fresh) = PyNone
  /\ generation_triggered career_click = true
  /\ calls_of (trace (rerun stub_provider fresh career_click)) = [].
Proof.
  assert (H1 : credential_at_trigger career_click (session_state fresh) = PyNone)
    by (vm_compute; reflexivity).
  assert (H2 : generation_triggered career_click = true) by reflexivity.
  split; [exact H1 | split; [exact H2 |]].
  exact (proj1 (proj2 (no_credential_no_call stub_provider fresh career_click H1 H2))).
Defined.

(** C3. With a credential set, triggering generation while at least one
    required field of the view is empty (interests, skills or goals for
    career guidance; the role for interview questions) displays the
    incomplete-input error of that view and makes no provider call. *)
Theorem incomplete_input_no_call provider s inp k :
  credential_at_trigger inp (session_state s) = PyStr k ->
  generation_triggered inp = true ->
  some_required_field_empty inp ->
  script provider inp s
  = (Ok tt,
     {| session_state := stored_after_sidebar inp (init_session (session_state s));
        trace := trace s ++ sidebar_events (credential (session_state s)) inp
                         ++ form_events (w_feature inp)
                         ++ [ st_error (incomplete_msg (w_feature inp));
                              st_markdown "</div>" true ] |})
  /\ calls_of (trace (rerun provider s inp)) = calls_of (trace s).
Proof.
  destruct s as [ss tr]. cbn [session_state trace]. intros Hcred Htrig Hempty.
  apply (inputs_complete_false inp Htrig) in Hempty.
  pose proof (lookup_at_trigger inp ss) as L. rewrite Hcred in L.
  split.
  - rewrite script_run.
    unfold view_of, generation_triggered, inputs_complete, form_events, incomplete_msg in *.
    destruct (w_feature inp); try discriminate.
    + rewrite (career_view_incomplete _ _ _ _ _ L Htrig Hempty). now rewrite <- app_assoc.
    + rewrite (interview_view_incomplete _ _ _ _ _ L Htrig Hempty). now rewrite <- app_assoc.
  - rewrite calls_of_rerun. unfold dispatched. cbn [session_state].
    rewrite Hcred, Htrig, Hempty. apply app_nil_r.
Qed.

Lemma incomplete_input_no_call_witness :
  credential_at_trigger career_click_no_goals (session_state keyed) = PyStr "sk-test"
  /\ generation_triggered career_click_no_goals = true
  /\ some_required_field_empty career_click_no_goals
  /\ calls_of (trace (rerun stub_provider keyed career_click_no_goals)) = [].
Proof.
  assert (H1 : credential_at_trigger career_click_no_goals (session_state keyed)
               = PyStr "sk-test") by (vm_compute; reflexivity).
  assert (H2 : generation_triggered career_click_no_goals = true) by reflexivity.
  assert (H3 : some_required_field_empty career_click_no_goals)
    by (right; right; reflexivity).
  split; [exact H1 | split; [exact H2 | split; [exact H3 |]]].
  exact (proj2 (incomplete_input_no_call stub_provider keyed career_click_no_goals
                  "sk-test" H1 H2 H3)).
Defined.

(** ** One call per trigger *)

Lemma credential_rerun provider s inp :
  credential (session_state (rerun provider s inp))
  = credential_at_trigger inp (session_state s).
Proof. unfold credential at 1. now rewrite lookup_rerun. Qed.

Lemma credential_at_trigger_again provider s inp k :
  credential_at_trigger inp (session_state s) = PyStr k ->
  credential_at_trigger inp (session_state (rerun provider s inp)) = PyStr k.
Proof.
  intros H. unfold credential_at_trigger in *. rewrite credential_rerun.
  unfold credential_at_trigger.
  destruct (truthy_str (w_api_key inp)); exact H.
Qed.

(** C4. Every trigger of a generation action with a credential set and all
    required inputs non-empty makes exactly one provider call, whatever the
    provider answers: one attempt and no retry.  Nothing is cached: the same
    trigger repeated makes the same call a second time, and a run without a
    trigger makes none. *)
Theorem one_call_per_trigger provider s inp k :
  credential_at_trigger inp (session_state s) = PyStr k ->
  generation_triggered inp = true ->
  all_required_fields_filled inp ->
  calls_of (trace (rerun provider s inp)) = calls_of (trace s) ++ [request_of k inp]
  /\ calls_of (trace (rerun provider (rerun provider s inp) inp))
     = calls_of (trace s) ++ [request_of k inp; request_of k inp]
  /\ (forall inp',
        generation_triggered inp' = false ->
        calls_of (trace (rerun provider (rerun provider s inp) inp'))
        = calls_of (trace s) ++ [request_of k inp]).
Proof.
  intros Hcred Htrig Hfull. apply inputs_complete_true in Hfull.
  assert (H1 : calls_of (trace (rerun provider s inp))
               = calls_of (trace s) ++ [request_of k inp]).
  { rewrite calls_of_rerun. unfold dispatched. now rewrite Hcred, Htrig, Hfull. }
  split; [exact H1 | split].
  - rewrite calls_of_rerun, H1. unfold dispatched.
    rewrite (credential_at_trigger_again provider s inp k Hcred), Htrig, Hfull.
    now rewrite <- app_assoc.
  - intros inp' Hidle. rewrite calls_of_rerun, H1. unfold dispatched.
    rewrite Hidle. cbn [andb].
    destruct (credential_at_trigger inp' _); apply app_nil_r.
Qed.

Lemma one_call_per_trigger_witness :
  credential_at_trigger career_click (session_state keyed) = PyStr "sk-test"
  /\ generation_triggered career_click = true
  /\ all_required_fields_filled career_click
  /\ calls_of (trace (rerun stub_provider keyed career_click))
     = [career_request "sk-test" "AI" "coding" "startup"].
Proof.
  assert (H1 : credential_at_trigger career_click (session_state keyed) = PyStr "sk-test")
    by (vm_compute; reflexivity).
  assert (H2 : generation_triggered career_click = true) by reflexivity.
  assert (H3 : all_required_fields_filled career_click)
    by (cbn; repeat split; discriminate).
  split; [exact H1 | split; [exact H2 | split; [exact H3 |]]].
  exact (proj1 (one_call_per_trigger stub_provider keyed career_click "sk-test" H1 H2 H3)).
Defined.

(** ** Rendering of the structured results *)

(** C5. For every successful provider response that carries a
    [CareerSuggestion], the Career Guidance view passes the [career] field to
    [st.info] and the [reasons] field to [st.write] exactly as returned. *)
Theorem career_fields_rendered_verbatim provider s inp k m c :
  credential_at_trigger inp (session_state s) = PyStr k ->
  w_feature inp = CareerGuidance ->
  w_generate_career inp = true ->
  all_required_fields_filled inp ->
  provider (calls_of (trace s)) (request_of k inp) = Returns m ->
  parsed m = ParsedCareer c ->
  script provider inp s
  = (Ok tt,
     {| session_state := stored_after_sidebar inp (init_session (session_state s));
        trace := trace s ++ sidebar_events (credential (session_state s)) inp
                         ++ career_form_events
                         ++ [ st_spinner "Analyzing your profile...";
                              provider_call (request_of k inp);
                              st_success "Analysis Complete!";
                              st_subheader "🌟 Suggested Career Path";
                              st_info (career c);
                              st_subheader "💡 Why This Path?";
                              st_write (reasons c);
                              st_markdown "</div>" true ] |}).
Proof.
  destruct s as [ss tr]. cbn [session_state trace].
  intros Hcred Hf Hc Hfull Hp Hm. apply inputs_complete_true in Hfull.
  pose proof (lookup_at_trigger inp ss) as L. rewrite Hcred in L.
  rewrite script_run. unfold view_of, inputs_complete, request_of in *.
  rewrite Hf in *.
  rewrite (career_view_dispatch _ _ _ _ _ L Hc Hfull). cbv zeta.
  rewrite calls_of_app, calls_of_sidebar_events, app_nil_r, Hp, Hm.
  now rewrite <- !app_assoc.
Qed.

Lemma career_fields_rendered_verbatim_witness :
  credential_at_trigger career_click (session_state keyed) = PyStr "sk-test"
  /\ all_required_fields_filled career_click
  /\ script stub_provider career_click keyed
     = (Ok tt,
        {| session_state :=
             stored_after_sidebar career_click (init_session (session_state keyed));
           trace := trace keyed
                    ++ sidebar_events (credential (session_state keyed)) career_click
                    ++ career_form_events
                    ++ [ st_spinner "Analyzing your profile...";
                         provider_call (request_of "sk-test" career_click);
                         st_success "Analysis Complete!";
                         st_subheader "🌟 Suggested Career Path";
                         st_info "ML Engineer";
                         st_subheader "💡 Why This Path?";
                         st_write "Strong technical fit";
                         st_markdown "</div>" true ] |}).
Proof.
  assert (H1 : credential_at_trigger career_click (session_state keyed) = PyStr "sk-test")
    by (vm_compute; reflexivity).
  assert (H3 : all_required_fields_filled career_click)
    by (cbn; repeat split; discriminate).
  split; [exact H1 | split; [exact H3 |]].
  exact (career_fields_rendered_verbatim stub_provider keyed career_click "sk-test"
           {| parsed := ParsedCareer ml_engineer |} ml_engineer
           H1 eq_refl eq_refl H3 eq_refl eq_refl).
Defined.

(** C6. For every successful provider response that carries an
    [InterviewQuestions] with a list of [n] questions, the view renders exactly
    [n] lines, one per question, in the order of the list, the line at
    position [i] (from 0) carrying the number [i + 1]. *)
Theorem questions_rendered_numbered provider s inp k m q :
  credential_at_trigger inp (session_state s) = PyStr k ->
  w_feature inp = InterviewQuestionGenerator ->
  w_generate_questions inp = true ->
  all_required_fields_filled inp ->
  provider (calls_of (trace s)) (request_of k inp) = Returns m ->
  parsed m = ParsedQuestions q ->
  script provider inp s
  = (Ok tt,
     {| session_state := stored_after_sidebar inp (init_session (session_state s));
        trace := trace s ++ sidebar_events (credential (session_state s)) inp
                         ++ interview_form_events
                         ++ [ st_spinner "Creating tailored questions...";
                              provider_call (request_of k inp);
                              st_success "Questions Generated!" ]
                         ++ imap question_line (questions q)
                         ++ [ st_markdown "</div>" true ] |})
  /\ length (imap question_line (questions q)) = length (questions q)
  /\ (forall i question,
        questions q !! i = Some question ->
        imap question_line (questions q) !! i
        = Some (st_markdown ("**Q" +:+ pretty (i + 1) +:+ ".** " +:+ question) false)).
Proof.
  destruct s as [ss tr]. cbn [session_state trace].
  intros Hcred Hf Hc Hfull Hp Hm. apply inputs_complete_true in Hfull.
  pose proof (lookup_at_trigger inp ss) as L. rewrite Hcred in L.
  split; [|split].
  - rewrite script_run. unfold view_of, inputs_complete, request_of in *.
    rewrite Hf in *.
    rewrite (interview_view_dispatch _ _ _ _ _ L Hc Hfull). cbv zeta.
    rewrite calls_of_app, calls_of_sidebar_events, app_nil_r, Hp, Hm.
    now rewrite <- !app_assoc.
  - apply length_imap.
  - intros i question Hi. rewrite list_lookup_imap, Hi. cbn.
    unfold question_line. now rewrite Nat.add_1_r.
Qed.

Lemma questions_rendered_numbered_witness :
  credential_at_trigger questions_click (session_state keyed) = PyStr "sk-test"
  /\ all_required_fields_filled questions_click
  /\ script stub_provider questions_click keyed
     = (Ok tt,
        {| session_state :=
             stored_after_sidebar questions_click (init_session (session_state keyed));
           trace := trace keyed
                    ++ sidebar_events (credential (session_state keyed)) questions_click
                    ++ interview_form_events
                    ++ [ st_spinner "Creating tailored questions...";
                         provider_call (request_of "sk-test" questions_click);
                         st_success "Questions Generated!" ]
                    ++ [ st_markdown "**Q1.** Q1" false;
                         st_markdown "**Q2.** Q2" false;
                         st_markdown "**Q3.** Q3" false ]
                    ++ [ st_markdown "</div>" true ] |}).
Proof.
  assert (H1 : credential_at_trigger questions_click (session_state keyed) = PyStr "sk-test")
    by (vm_compute; reflexivity).
  assert (H3 : all_required_fields_filled questions_click) by (cbn; discriminate).
  split; [exact H1 | split; [exact H3 |]].
  exact (proj1 (questions_rendered_numbered stub_provider keyed questions_click "sk-test"
                  {| parsed := ParsedQuestions three_questions |} three_questions
                  H1 eq_refl eq_refl H3 eq_refl eq_refl)).
Defined.

(** ** The credential holder *)

(** C7. In every state that a session can be in, after any sequence of runs
    against any provider, [is_api_key_set] returns [True] if and only if a
    non-empty credential string is stored in the session. *)
Theorem is_api_key_set_iff_nonempty_stored provider runs :
  (is_api_key_set (session_after provider runs)).1 = Ok true
  <-> exists k,
        session_state (session_after provider runs) !! "openai_api_key" = Some (PyStr k)
        /\ k <> EmptyString.
Proof.
  pose proof (session_after_nonempty provider runs) as Hne.
  unfold is_api_key_set. run.
  destruct (session_state (session_after provider runs) !! "openai_api_key")
    as [[|k]|] eqn:L; cbn [fst]; split.
  - discriminate.
  - intros (k & [=] & _).
  - intros _. exists k. split; [reflexivity | now apply Hne].
  - reflexivity.
  - discriminate.
  - intros (k & [=] & _).
Qed.

(** C8, as amended. Every structured result that a gateway operation returns
    successfully is the message that the provider returned for the request of
    that call, with its fields unchanged, and every message the provider
    returns is returned so; no field is required to be non-empty. *)
Theorem gateway_returns_provider_answer provider (ss : gmap string pyval) tr k m
    interests skills goals role :
  ss !! "openai_api_key" = Some (PyStr k) ->
  ((generate_career_guidance provider interests skills goals
      {| session_state := ss; trace := tr |}).1 = Ok (Some m)
   <-> provider (calls_of tr) (career_request k interests skills goals) = Returns m)
  /\
  ((generate_interview_questions provider role
      {| session_state := ss; trace := tr |}).1 = Ok (Some m)
   <-> provider (calls_of tr) (interview_request k role) = Returns m).
Proof.
  intros H. split.
  - rewrite (generate_career_guidance_run provider _ _ _ ss tr k H). cbv zeta.
    destruct (provider _ _) as [m'|e]; cbn [fst].
    + split; congruence.
    + destruct (is_Exception (exn_cls e)); cbn [fst]; split; discriminate.
  - rewrite (generate_interview_questions_run provider _ ss tr k H). cbv zeta.
    destruct (provider _ _) as [m'|e]; cbn [fst].
    + split; congruence.
    + destruct (is_Exception (exn_cls e)); cbn [fst]; split; discriminate.
Qed.

Lemma gateway_returns_provider_answer_witness :
  session_state keyed !! "openai_api_key" = Some (PyStr "sk-test")
  /\ ((generate_career_guidance stub_provider "AI" "coding" "startup"
         {| session_state := session_state keyed; trace := [] |}).1
      = Ok (Some {| parsed := ParsedCareer ml_engineer |})
      <-> stub_provider (calls_of []) (career_request "sk-test" "AI" "coding" "startup")
          = Returns {| parsed := ParsedCareer ml_engineer |}).
Proof.
  assert (L : session_state keyed !! "openai_api_key" = Some (PyStr "sk-test"))
    by (vm_compute; reflexivity).
  split; [exact L |].
  exact (proj1 (gateway_returns_provider_answer stub_provider (session_state keyed) []
                  "sk-test" {| parsed := ParsedCareer ml_engineer |}
                  "AI" "coding" "startup" "Data Scientist" L)).
Defined.

(** C8, as stated, fails: with a credential stored and a provider that answers
    in the declared shape with empty fields, both gateway operations return
    that answer successfully. *)
Lemma blank_result_returned :
  (generate_career_guidance blank_provider "AI" "coding" "startup" keyed).1
  = Ok (Some blank_career)
  /\ ~ fields_nonempty blank_career
  /\ (generate_interview_questions blank_provider "Data Scientist" keyed).1
     = Ok (Some blank_questions)
  /\ ~ fields_nonempty blank_questions.
Proof.
  assert (L : session_state keyed !! "openai_api_key" = Some (PyStr "sk-test"))
    by (vm_compute; reflexivity).
  unfold keyed in *. cbn [session_state] in L.
  split; [|split; [|split]].
  - now rewrite (generate_career_guidance_run blank_provider _ _ _ _ [] _ L).
  - intros [Hc _]. now apply Hc.
  - now rewrite (generate_interview_questions_run blank_provider _ _ [] _ L).
  - intros [Hr _]. now apply Hr.
Qed.

(** C9. Once a non-empty credential is stored, no later run clears it,
    whatever the user does and whatever the provider answers: after any
    sequence of runs the stored value is the last non-empty key typed into the
    sidebar field, or the original one when every later field was empty. *)
Theorem stored_credential_never_cleared provider s k runs :
  session_state s !! "openai_api_key" = Some (PyStr k) ->
  k <> EmptyString ->
  session_state (foldl (rerun provider) s runs) !! "openai_api_key"
  = Some (PyStr (latest_key k runs))
  /\ latest_key k runs <> EmptyString.
Proof.
  revert s k. induction runs as [|inp runs IH]; intros s k Hs Hk; cbn [foldl].
  - split; assumption.
  - unfold latest_key. cbn [foldl]. apply IH.
    + rewrite lookup_rerun. unfold credential_at_trigger, credential. rewrite Hs. cbn.
      now destruct (truthy_str (w_api_key inp)).
    + destruct (truthy_str (w_api_key inp)) eqn:E; [now apply truthy_str_nonempty | exact Hk].
Qed.

Lemma stored_credential_never_cleared_witness :
  session_state keyed !! "openai_api_key" = Some (PyStr "sk-test")
  /\ "sk-test" <> EmptyString
  /\ session_state (foldl (rerun failing_provider) keyed [career_click; example_click])
       !! "openai_api_key"
     = Some (PyStr "sk-test").
Proof.
  assert (L : session_state keyed !! "openai_api_key" = Some (PyStr "sk-test"))
    by (vm_compute; reflexivity).
  assert (N : "sk-test" <> EmptyString) by discriminate.
  split; [exact L | split; [exact N |]].
  exact (proj1 (stored_credential_never_cleared failing_provider keyed "sk-test"
                  [career_click; example_click] L N)).
Defined.

(** ** The example view *)

(** C10. In every state, for every provider, the Run Example button of the
    How It Works view makes no provider call: without a credential it
    displays the missing-credential error, and with one it renders the fixed
    poem and the success message. *)
Theorem run_example_is_static provider s inp :
  w_feature inp = HowItWorks ->
  w_run_example inp = true ->
  script provider inp s
  = (Ok tt,
     {| session_state := stored_after_sidebar inp (init_session (session_state s));
        trace := trace s ++ sidebar_events (credential (session_state s)) inp
                         ++ example_form_events
                         ++ match credential_at_trigger inp (session_state s) with
                            | PyNone => [ st_error missing_key_msg ]
                            | PyStr _ =>
                                [ st_markdown "---" false;
                                  st_markdown poem_text false;
                                  st_success "Yay! See how easy it is to create magic with ell? 🎉" ]
                            end
                         ++ example_footer_events |})
  /\ calls_of (trace (rerun provider s inp)) = calls_of (trace s).
Proof.
  destruct s as [ss tr]. cbn [session_state trace]. intros Hf Hc.
  pose proof (lookup_at_trigger inp ss) as L.
  split.
  - rewrite script_run. unfold view_of. rewrite Hf.
    rewrite (how_it_works_view_run _ _ _ _ L Hc). now rewrite <- app_assoc.
  - rewrite calls_of_rerun. unfold dispatched, generation_triggered. cbn [session_state].
    rewrite Hf. cbn [andb]. destruct (credential_at_trigger inp ss); apply app_nil_r.
Qed.

Lemma run_example_is_static_witness :
  w_feature example_click = HowItWorks
  /\ w_run_example example_click = true
  /\ calls_of (trace (rerun failing_provider keyed example_click)) = calls_of (trace keyed).
Proof.
  split; [reflexivity | split; [reflexivity |]].
  exact (proj2 (run_example_is_static failing_provider keyed example_click eq_refl eq_refl)).
Defined.

(** ** Further properties: the quote, the module-level code *)

(** X1. Whatever the generator draws, [get_random_inspiration] returns one of
    the four quotes of its list. *)
Theorem inspiration_is_a_quote (r : nat) : get_random_inspiration r ∈ quotes.
Proof.
  unfold get_random_inspiration, random_choice.
  apply nth_elem_of, Nat.mod_upper_bound. discriminate.
Qed.

(** X2. After the module-level code, [is_api_key_set] never raises: it returns
    whether a string was stored before, and draws nothing.  On its own it
    raises exactly when the key is absent from the dictionary. *)
Theorem is_api_key_set_after_init s :
  (module_init ≫= (fun _ => is_api_key_set)) s
  = (Ok (match credential (session_state s) with PyStr _ => true | PyNone => false end),
     {| session_state := init_session (session_state s); trace := trace s |})
  /\ ((exists e, (is_api_key_set s).1 = Raise e)
      <-> session_state s !! "openai_api_key" = None).
Proof.
  destruct s as [ss tr]. cbn [session_state trace]. split.
  - unfold module_init, init_session, credential. run.
    destruct (ss !! "openai_api_key") as [v|] eqn:L; cbn;
      rewrite ?L, ?lookup_insert_eq; reflexivity.
  - unfold is_api_key_set. run.
    destruct (ss !! "openai_api_key") as [v|]; cbn [fst]; split.
    + intros [e [=]].
    + discriminate.
    + reflexivity.
    + eauto.
Qed.

(** X3. The module-level code is idempotent, draws nothing, never raises, and
    leaves under the key the value that was there, or [None] when there was
    none. *)
Theorem module_init_idempotent s :
  (module_init ≫= (fun _ => module_init)) s = module_init s
  /\ (module_init s).1 = Ok tt
  /\ trace (module_init s).2 = trace s
  /\ session_state (module_init s).2 !! "openai_api_key"
     = Some (credential (session_state s)).
Proof.
  destruct s as [ss tr]. unfold module_init, credential. run.
  destruct (ss !! "openai_api_key") as [v|] eqn:L; cbn;
    rewrite ?L, ?lookup_insert_eq; cbn; rewrite ?L, ?lookup_insert_eq; auto.
Qed.

(** ** Further properties: how a run ends *)

(** X4. Against a provider that answers in the declared shape or fails with an
    [Exception], every run of the script ends normally, from every state and
    for every input. *)
Theorem run_ends_normally provider s inp :
  well_behaved provider ->
  (script provider inp s).1 = Ok tt.
Proof.
  intros Hwb. destruct s as [ss tr]. rewrite script_run.
  pose proof (lookup_at_trigger inp ss) as L. unfold view_of.
  destruct (w_feature inp).
  - destruct (w_generate_career inp) eqn:Hc.
    + destruct (credential_at_trigger inp ss) as [|k].
      * now rewrite (career_view_no_key _ _ _ _ L Hc).
      * destruct (truthy_str (w_interests inp) && truthy_str (w_skills inp)
                  && truthy_str (w_goals inp)) eqn:Hi.
        -- rewrite (career_view_dispatch _ _ _ _ _ L Hc Hi). cbv zeta.
           match goal with |- context [provider ?h ?r] =>
             specialize (Hwb h r); destruct (provider h r) as [[[c|q]]|e] end;
             cbn in Hwb; try discriminate; [reflexivity|].
           now rewrite Hwb.
        -- now rewrite (career_view_incomplete _ _ _ _ _ L Hc Hi).
    + now rewrite (career_view_idle _ _ _ _ Hc).
  - destruct (w_generate_questions inp) eqn:Hc.
    + destruct (credential_at_trigger inp ss) as [|k].
      * now rewrite (interview_view_no_key _ _ _ _ L Hc).
      * destruct (truthy_str (w_role inp)) eqn:Hi.
        -- rewrite (interview_view_dispatch _ _ _ _ _ L Hc Hi). cbv zeta.
           match goal with |- context [provider ?h ?r] =>
             specialize (Hwb h r); destruct (provider h r) as [[[c|q]]|e] end;
             cbn in Hwb; try discriminate; [reflexivity|].
           now rewrite Hwb.
        -- now rewrite (interview_view_incomplete _ _ _ _ _ L Hc Hi).
    + now rewrite (interview_view_idle _ _ _ _ Hc).
  - now rewrite about_view_run.
  - destruct (w_run_example inp) eqn:Hc.
    + now rewrite (how_it_works_view_run _ _ _ _ L Hc).
    + now rewrite (how_it_works_view_idle _ _ _ Hc).
Qed.

Lemma stub_provider_well_behaved : well_behaved stub_provider.
Proof. intros history r. unfold stub_provider. now destruct (req_format r). Qed.

Lemma run_ends_normally_witness :
  well_behaved stub_provider /\ (script stub_provider career_click keyed).1 = Ok tt.
Proof.
  split; [exact stub_provider_well_behaved |].
  exact (run_ends_normally stub_provider keyed career_click stub_provider_well_behaved).
Defined.

Ltac dispatch_case L Hp He :=
  match goal with
  | Htrig : _ = true, Hfull : _ = true |- _ =>
      first [ rewrite (career_view_dispatch _ _ _ _ _ L Htrig Hfull)
            | rewrite (interview_view_dispatch _ _ _ _ _ L Htrig Hfull) ]
  end;
  cbv zeta; rewrite calls_of_app, calls_of_sidebar_events, app_nil_r, Hp, He;
  now rewrite <- !app_assoc.

(** X5. A provider fault that is not an [Exception] is not caught: the run
    ends with that fault right after the call, and draws neither an error
    message nor the closing markup of the view. *)
Theorem uncaught_fault_propagates provider s inp k e :
  credential_at_trigger inp (session_state s) = PyStr k ->
  generation_triggered inp = true ->
  all_required_fields_filled inp ->
  provider (calls_of (trace s)) (request_of k inp) = Raises e ->
  is_Exception (exn_cls e) = false ->
  script provider inp s
  = (Raise e,
     {| session_state := stored_after_sidebar inp (init_session (session_state s));
        trace := trace s ++ sidebar_events (credential (session_state s)) inp
                         ++ form_events (w_feature inp)
                         ++ [ st_spinner (spinner_text (w_feature inp));
                              provider_call (request_of k inp) ] |}).
Proof.
  destruct s as [ss tr]. cbn [session_state trace].
  intros Hcred Htrig Hfull Hp He. apply inputs_complete_true in Hfull.
  pose proof (lookup_at_trigger inp ss) as L. rewrite Hcred in L.
  rewrite script_run.
  unfold view_of, generation_triggered, inputs_complete, request_of,
    form_events, spinner_text in *.
  destruct (w_feature inp); try discriminate; dispatch_case L Hp He.
Qed.

Lemma uncaught_fault_propagates_witness :
  credential_at_trigger career_click (session_state keyed) = PyStr "sk-test"
  /\ all_required_fields_filled career_click
  /\ (script interrupting_provider career_click keyed).1 = Raise interrupted.
Proof.
  assert (H1 : credential_at_trigger career_click (session_state keyed) = PyStr "sk-test")
    by (vm_compute; reflexivity).
  assert (H3 : all_required_fields_filled career_click)
    by (cbn; repeat split; discriminate).
  split; [exact H1 | split; [exact H3 |]].
  exact (f_equal fst (uncaught_fault_propagates interrupting_provider keyed career_click
                        "sk-test" interrupted H1 eq_refl H3 eq_refl eq_refl)).
Defined.

(** X6. When the provider fails with an [Exception] during a triggered
    generation, the run ends normally and draws, after the spinner and the
    call, the error message and the closing markup only: no success banner
    and no field of a result. *)
Theorem provider_failure_rendered provider s inp k e :
  credential_at_trigger inp (session_state s) = PyStr k ->
  generation_triggered inp = true ->
  all_required_fields_filled inp ->
  provider (calls_of (trace s)) (request_of k inp) = Raises e ->
  is_Exception (exn_cls e) = true ->
  script provider inp s
  = (Ok tt,
     {| session_state := stored_after_sidebar inp (init_session (session_state s));
        trace := trace s ++ sidebar_events (credential (session_state s)) inp
                         ++ form_events (w_feature inp)
                         ++ [ st_spinner (spinner_text (w_feature inp));
                              provider_call (request_of k inp);
                              st_error ("Error: " +:+ exn_str e);
                              st_markdown "</div>" true ] |}).
Proof.
  destruct s as [ss tr]. cbn [session_state trace].
  intros Hcred Htrig Hfull Hp He. apply inputs_complete_true in Hfull.
  pose proof (lookup_at_trigger inp ss) as L. rewrite Hcred in L.
  rewrite script_run.
  unfold view_of, generation_triggered, inputs_complete, request_of,
    form_events, spinner_text in *.
  destruct (w_feature inp); try discriminate; dispatch_case L Hp He.
Qed.

Lemma provider_failure_rendered_witness :
  credential_at_trigger questions_click (session_state keyed) = PyStr "sk-test"
  /\ all_required_fields_filled questions_click
  /\ (script failing_provider questions_click keyed).1 = Ok tt.
Proof.
  assert (H1 : credential_at_trigger questions_click (session_state keyed) = PyStr "sk-test")
    by (vm_compute; reflexivity).
  assert (H3 : all_required_fields_filled questions_click) by (cbn; discriminate).
  split; [exact H1 | split; [exact H3 |]].
  exact (f_equal fst (provider_failure_rendered failing_provider keyed questions_click
                        "sk-test" rate_limited H1 eq_refl H3 eq_refl eq_refl)).
Defined.

(** ** Further properties: the outbound calls *)

Lemma length_dispatched inp (ss : gmap string pyval) : length (dispatched inp ss) <= 1.
Proof.
  unfold dispatched. destruct (credential_at_trigger inp ss); cbn; [lia|].
  destruct (generation_triggered inp && inputs_complete inp); cbn; lia.
Qed.

(** X7. A run reaches the provider exactly when its three guards pass: a
    generating view is triggered, its required inputs are complete and a
    credential is in force; and no run makes more than one call. *)
Theorem call_iff_guards provider s inp :
  (calls_of (trace (rerun provider s inp)) <> calls_of (trace s)
   <-> generation_triggered inp = true
       /\ inputs_complete inp = true
       /\ credential_at_trigger inp (session_state s) <> PyNone)
  /\ length (calls_of (trace (rerun provider s inp)))
     <= S (length (calls_of (trace s))).
Proof.
  rewrite calls_of_rerun. split.
  - unfold dispatched.
    destruct (credential_at_trigger inp (session_state s)) as [|k];
      [| destruct (generation_triggered inp); [destruct (inputs_complete inp)|]];
      cbn [andb]; rewrite ?app_nil_r; split;
      try (intros Hne; now contradiction Hne);
      try (intros (? & ? & ?); congruence).
    + intros _. repeat split; discriminate.
    + intros _ Heq. apply (f_equal length) in Heq.
      rewrite length_app in Heq. cbn in Heq. lia.
  - rewrite length_app. pose proof (length_dispatched inp (session_state s)). lia.
Qed.

(** X8. In every session the number of provider calls is at most the number
    of runs. *)
Theorem session_calls_bounded provider runs :
  length (calls_of (trace (session_after provider runs))) <= length runs.
Proof.
  induction runs as [|inp runs IH] using rev_ind.
  - cbn. lia.
  - rewrite session_after_snoc, calls_of_rerun, !length_app. cbn [length].
    pose proof (length_dispatched inp (session_state (session_after provider runs))).
    lia.
Qed.

(** X9. A session in which no key is ever typed into the sidebar field never
    calls the provider and never holds a credential, whatever is clicked. *)
Theorem keyless_session_never_calls provider runs :
  Forall (fun inp => w_api_key inp = EmptyString) runs ->
  calls_of (trace (session_after provider runs)) = []
  /\ credential (session_state (session_after provider runs)) = PyNone.
Proof.
  induction runs as [|inp runs IH] using rev_ind; intros Hall.
  - split; reflexivity.
  - apply Forall_app in Hall as [Hruns Hinp].
    rewrite Forall_singleton in Hinp. destruct (IH Hruns) as [Hcalls Hcred].
    assert (Ht : credential_at_trigger inp
                   (session_state (session_after provider runs)) = PyNone).
    { unfold credential_at_trigger. now rewrite Hinp, Hcred. }
    rewrite session_after_snoc. split.
    + rewrite calls_of_rerun, Hcalls. unfold dispatched. now rewrite Ht.
    + now rewrite credential_rerun.
Qed.

Lemma keyless_session_never_calls_witness :
  Forall (fun inp => w_api_key inp = EmptyString) [career_click; questions_click]
  /\ calls_of (trace (session_after stub_provider [career_click; questions_click])) = [].
Proof.
  assert (H : Forall (fun inp => w_api_key inp = EmptyString)
                [career_click; questions_click])
    by (repeat constructor).
  split; [exact H |].
  exact (proj1 (keyless_session_never_calls stub_provider
                  [career_click; questions_click] H)).
Defined.

Lemma credential_lookup (ss : gmap string pyval) k :
  credential ss = PyStr k -> ss !! "openai_api_key" = Some (PyStr k).
Proof.
  unfold credential. destruct (ss !! "openai_api_key") as [v|]; cbn; congruence.
Qed.

(** X10. Every call made in any session is a request of one of the two
    gateway operations that carries a non-empty credential and non-empty
    inputs: no empty field is ever interpolated into a prompt that is sent. *)
Theorem session_requests_well_formed provider runs :
  Forall generation_request (calls_of (trace (session_after provider runs))).
Proof.
  induction runs as [|inp runs IH] using rev_ind.
  - constructor.
  - rewrite session_after_snoc, calls_of_rerun. apply Forall_app. split; [exact IH|].
    unfold dispatched. set (s := session_after provider runs).
    destruct (credential_at_trigger inp (session_state s)) as [|k] eqn:Hcred;
      [constructor|].
    destruct (generation_triggered inp) eqn:Htrig; [|constructor].
    destruct (inputs_complete inp) eqn:Hfull; [|constructor].
    cbn [andb]. apply Forall_singleton. exists k. split.
    + unfold credential_at_trigger in Hcred.
      destruct (truthy_str (w_api_key inp)) eqn:E.
      * injection Hcred as <-. now apply truthy_str_nonempty.
      * apply credential_lookup in Hcred.
        exact (session_after_nonempty provider runs k Hcred).
    + apply inputs_complete_true in Hfull.
      unfold request_of, all_required_fields_filled, generation_triggered in *.
      destruct (w_feature inp); try discriminate.
      * left. destruct Hfull as (Hi & Hs & Hg). eauto 10.
      * right. eauto.
Qed.

(** X11. A key typed in one run is the one sent by a generation triggered in
    a later run whose sidebar field is empty. *)
Theorem key_typed_then_used provider s inp1 inp2 :
  w_api_key inp1 <> EmptyString ->
  w_api_key inp2 = EmptyString ->
  generation_triggered inp2 = true ->
  all_required_fields_filled inp2 ->
  calls_of (trace (rerun provider (rerun provider s inp1) inp2))
  = calls_of (trace (rerun provider s inp1)) ++ [request_of (w_api_key inp1) inp2].
Proof.
  intros H1 H2 Htrig Hfull. apply inputs_complete_true in Hfull.
  apply truthy_str_nonempty in H1.
  rewrite (calls_of_rerun provider (rerun provider s inp1) inp2). unfold dispatched.
  unfold credential_at_trigger at 1. rewrite H2. cbn [truthy_str].
  rewrite credential_rerun. unfold credential_at_trigger. rewrite H1.
  now rewrite Htrig, Hfull.
Qed.

Lemma key_typed_then_used_witness :
  w_api_key type_key <> EmptyString
  /\ all_required_fields_filled career_click
  /\ calls_of (trace (rerun stub_provider (rerun stub_provider fresh type_key) career_click))
     = calls_of (trace (rerun stub_provider fresh type_key))
       ++ [request_of "sk-live" career_click].
Proof.
  assert (H1 : w_api_key type_key <> EmptyString) by discriminate.
  assert (H3 : all_required_fields_filled career_click)
    by (cbn; repeat split; discriminate).
  split; [exact H1 | split; [exact H3 |]].
  exact (key_typed_then_used stub_provider fresh type_key career_click
           H1 eq_refl eq_refl H3).
Defined.

(** X12. A key typed in the run of the trigger is the one sent and the one
    stored afterwards, whatever key was stored before. *)
Theorem typed_key_overrides provider s inp :
  w_api_key inp <> EmptyString ->
  generation_triggered inp = true ->
  all_required_fields_filled inp ->
  calls_of (trace (rerun provider s inp))
  = calls_of (trace s) ++ [request_of (w_api_key inp) inp]
  /\ credential (session_state (rerun provider s inp)) = PyStr (w_api_key inp).
Proof.
  intros H1 Htrig Hfull. apply inputs_complete_true in Hfull.
  apply truthy_str_nonempty in H1.
  rewrite calls_of_rerun, credential_rerun. unfold dispatched, credential_at_trigger.
  now rewrite H1, Htrig, Hfull.
Qed.

Lemma typed_key_overrides_witness :
  w_api_key (set_api_key_field "sk-new" career_click) <> EmptyString
  /\ all_required_fields_filled (set_api_key_field "sk-new" career_click)
  /\ credential (session_state
       (rerun stub_provider keyed (set_api_key_field "sk-new" career_click)))
     = PyStr "sk-new".
Proof.
  assert (H1 : w_api_key (set_api_key_field "sk-new" career_click) <> EmptyString)
    by discriminate.
  assert (H3 : all_required_fields_filled (set_api_key_field "sk-new" career_click))
    by (cbn; repeat split; discriminate).
  split; [exact H1 | split; [exact H3 |]].
  exact (proj2 (typed_key_overrides stub_provider keyed
                  (set_api_key_field "sk-new" career_click) H1 eq_refl H3)).
Defined.

(** ** Further properties: the prompts *)

Lemma append_cons x (a b : string) : String x a +:+ b = String x (a +:+ b).
Proof. reflexivity. Qed.

Lemma append_assoc (a b c : string) : (a +:+ b) +:+ c = a +:+ (b +:+ c).
Proof.
  induction a as [|x a IH]; [reflexivity|].
  now rewrite !append_cons, IH.
Qed.

Lemma append_dot_inj (a b : string) : a +:+ "." = b +:+ "." -> a = b.
Proof.
  revert b. induction a as [|x a IH]; intros [|y b] H.
  - reflexivity.
  - rewrite append_cons in H. injection H as _ H. now destruct b.
  - rewrite append_cons in H. injection H as _ H. now destruct a.
  - rewrite !append_cons in H. injection H as -> H. f_equal. now apply IH.
Qed.

Lemma interview_request_inj k k' role role' :
  interview_request k role = interview_request k' role' -> k = k' /\ role = role'.
Proof.
  unfold interview_request. intros [= Hk Hp]. split; [exact Hk|].
  now apply append_dot_inj.
Qed.

Lemma calls_of_interview_gateway provider role (ss : gmap string pyval) tr k :
  ss !! "openai_api_key" = Some (PyStr k) ->
  calls_of (trace (generate_interview_questions provider role
                     {| session_state := ss; trace := tr |}).2)
  = calls_of tr ++ [interview_request k role].
Proof.
  intros H. rewrite (generate_interview_questions_run provider _ ss tr k H). cbv zeta.
  destruct (provider _ _) as [m|e]; [|destruct (is_Exception (exn_cls e))];
    cbn [snd trace]; now rewrite calls_of_app.
Qed.

(** X13. With a credential stored, [generate_interview_questions] sends
    different requests for different roles: the role can be read back from
    the prompt. *)
Theorem interview_request_determines_role provider (ss : gmap string pyval) tr k
    role role' :
  ss !! "openai_api_key" = Some (PyStr k) ->
  role <> role' ->
  calls_of (trace (generate_interview_questions provider role
                     {| session_state := ss; trace := tr |}).2)
  <> calls_of (trace (generate_interview_questions provider role'
                        {| session_state := ss; trace := tr |}).2).
Proof.
  intros H Hne. rewrite !(calls_of_interview_gateway provider _ ss tr k H).
  intros Heq. apply app_inv_head in Heq.
  assert (E : interview_request k role = interview_request k role') by congruence.
  now apply interview_request_inj in E.
Qed.

Lemma interview_request_determines_role_witness :
  session_state keyed !! "openai_api_key" = Some (PyStr "sk-test")
  /\ "Data Scientist" <> "Product Manager"
  /\ calls_of (trace (generate_interview_questions stub_provider "Data Scientist"
                        {| session_state := session_state keyed; trace := [] |}).2)
     <> calls_of (trace (generate_interview_questions stub_provider "Product Manager"
                           {| session_state := session_state keyed; trace := [] |}).2).
Proof.
  assert (L : session_state keyed !! "openai_api_key" = Some (PyStr "sk-test"))
    by (vm_compute; reflexivity).
  assert (N : "Data Scientist" <> "Product Manager") by discriminate.
  split; [exact L | split; [exact N |]].
  exact (interview_request_determines_role stub_provider (session_state keyed) []
           "sk-test" "Data Scientist" "Product Manager" L N).
Defined.

(** X14. The career prompt does not keep its three inputs apart: text that
    contains the separator of the template can move between the interests and
    the skills without any change in what [generate_career_guidance] does. *)
Theorem career_prompt_separator_collision provider a b c goals s :
  generate_career_guidance provider (a +:+ ", skills: " +:+ b) c goals s
  = generate_career_guidance provider a (b +:+ ", skills: " +:+ c) goals s.
Proof.
  destruct s as [ss tr].
  destruct (ss !! "openai_api_key") as [[|k]|] eqn:L.
  - now rewrite !(generate_career_guidance_no_key provider _ _ _ ss tr L).
  - rewrite !(generate_career_guidance_run provider _ _ _ ss tr k L). cbv zeta.
    replace (career_request k (a +:+ ", skills: " +:+ b) c goals)
      with (career_request k a (b +:+ ", skills: " +:+ c) goals); [reflexivity|].
    unfold career_request. now rewrite !append_assoc.
  - unfold generate_career_guidance. run. now rewrite L.
Qed.

(** ** Further properties: what a run draws *)

(** X15. A run in which the button of the selected view is not clicked ends
    normally and draws the sidebar and the static part of that view only: no
    error, no spinner, no result, whatever the credential and the text fields
    hold. *)
Theorem idle_run_is_static provider s inp :
  button_clicked inp = false ->
  script provider inp s
  = (Ok tt,
     {| session_state := stored_after_sidebar inp (init_session (session_state s));
        trace := trace s ++ sidebar_events (credential (session_state s)) inp
                         ++ idle_events (w_feature inp) |}).
Proof.
  destruct s as [ss tr]. cbn [session_state trace]. intros Hc.
  rewrite script_run. unfold view_of, button_clicked, idle_events, about_events in *.
  destruct (w_feature inp).
  - rewrite (career_view_idle _ _ _ _ Hc). now rewrite <- app_assoc.
  - rewrite (interview_view_idle _ _ _ _ Hc). now rewrite <- app_assoc.
  - rewrite about_view_run. now rewrite <- app_assoc.
  - rewrite (how_it_works_view_idle _ _ _ Hc). now rewrite <- app_assoc.
Qed.

Lemma idle_run_is_static_witness :
  button_clicked type_key = false
  /\ (script stub_provider type_key fresh).1 = Ok tt.
Proof.
  split; [reflexivity |].
  exact (f_equal fst (idle_run_is_static stub_provider fresh type_key eq_refl)).
Defined.

(** X16. The session dictionary that a run leaves behind depends on the
    dictionary before it and on the sidebar field only: not on the provider,
    the selected view, the other fields or the buttons. *)
Theorem session_depends_on_sidebar_only provider1 provider2 s inp1 inp2 :
  w_api_key inp1 = w_api_key inp2 ->
  session_state (rerun provider1 s inp1) = session_state (rerun provider2 s inp2).
Proof.
  intros H. rewrite !session_state_rerun. unfold stored_after_sidebar. now rewrite H.
Qed.

Lemma session_depends_on_sidebar_only_witness :
  w_api_key career_click = w_api_key example_click
  /\ session_state (rerun stub_provider keyed career_click)
     = session_state (rerun interrupting_provider keyed example_click).
Proof.
  split; [reflexivity |].
  exact (session_depends_on_sidebar_only stub_provider interrupting_provider keyed
           career_click example_click eq_refl).
Defined.

(** ** Further properties: the trace only grows *)

Lemma appends_ret {A} (a : A) : appends_only (mret a : M A).
Proof. intros s. exists []. cbn. now rewrite app_nil_r. Qed.

Lemma appends_raise {A} e : appends_only (raise e : M A).
Proof. intros s. exists []. cbn. now rewrite app_nil_r. Qed.

Lemma appends_emit e : appends_only (emit e).
Proof. intros s. now exists [e]. Qed.

Lemma appends_session_get key : appends_only (session_get key).
Proof.
  intros s. exists []. unfold session_get.
  destruct (session_state s !! key); cbn; now rewrite app_nil_r.
Qed.

Lemma appends_invoke provider r : appends_only (invoke provider r).
Proof.
  intros s. exists [provider_call r]. unfold invoke.
  now destruct (provider _ r).
Qed.

Lemma appends_bind {A B} (m : M A) (k : A -> M B) :
  appends_only m -> (forall a, appends_only (k a)) -> appends_only (m ≫= k).
Proof.
  intros Hm Hk s. unfold mbind, M_bind, bind.
  destruct (Hm s) as [evs Hevs]. destruct (m s) as [[a|e] s']; cbn in *.
  - destruct (Hk a s') as [evs' Hevs']. exists (evs ++ evs').
    now rewrite Hevs', Hevs, app_assoc.
  - now exists evs.
Qed.

Lemma appends_try_except {A} (body : M A) handler :
  appends_only body -> (forall e, appends_only (handler e)) ->
  appends_only (try_except body handler).
Proof.
  intros Hb Hh s. unfold try_except.
  destruct (Hb s) as [evs Hevs]. destruct (body s) as [[a|e] s']; cbn in *.
  - now exists evs.
  - destruct (is_Exception (exn_cls e)); [|now exists evs].
    destruct (Hh e s') as [evs' Hevs']. exists (evs ++ evs').
    now rewrite Hevs', Hevs, app_assoc.
Qed.

Lemma appends_for_each {A} (l : list A) (body : A -> M unit) :
  (forall x, appends_only (body x)) -> appends_only (for_each l body).
Proof.
  intros Hb. induction l as [|x l IH]; cbn [for_each].
  - apply appends_ret.
  - apply appends_bind; auto.
Qed.

Create HintDb grow.

#[local] Hint Resolve appends_ret appends_raise appends_emit appends_session_get
  appends_invoke : grow.

Ltac grow :=
  repeat first
    [ solve [auto with grow]
    | apply appends_bind; [|intros ?]
    | apply appends_try_except; [|intros ?]
    | apply appends_for_each; intros [? ?]
    | match goal with
      | |- appends_only (if ?b then _ else _) => destruct b
      | |- appends_only (match ?x with _ => _ end) => destruct x
      end ].

Lemma appends_is_api_key_set : appends_only is_api_key_set.
Proof. unfold is_api_key_set. grow. Qed.

Lemma appends_generate_career_guidance provider interests skills goals :
  appends_only (generate_career_guidance provider interests skills goals).
Proof.
  pose proof appends_is_api_key_set.
  unfold generate_career_guidance, openai_Client. grow.
Qed.

Lemma appends_generate_interview_questions provider role :
  appends_only (generate_interview_questions provider role).
Proof.
  pose proof appends_is_api_key_set.
  unfold generate_interview_questions, openai_Client. grow.
Qed.

Lemma appends_view_of provider inp : appends_only (view_of provider inp).
Proof.
  pose proof appends_is_api_key_set.
  pose proof (appends_generate_career_guidance provider).
  pose proof (appends_generate_interview_questions provider).
  unfold view_of, career_guidance_view, interview_view, about_view, how_it_works_view,
    text_area, text_input, button, attr_career, attr_reasons, attr_questions.
  destruct (w_feature inp); grow.
Qed.

(** X17. Every run, however it ends and whatever the provider answers, keeps
    the events drawn before it and first draws the header and the sidebar: the
    style block, the title, the key field filled with the stored key, the
    feedback under it, the quote box and the navigation radio. *)
Theorem run_starts_with_sidebar provider s inp :
  (exists evs,
     trace (rerun provider s inp)
     = trace s ++ sidebar_events (credential (session_state s)) inp ++ evs)
  /\ sidebar_events (credential (session_state s)) inp !! 3
     = Some (st_sidebar_text_input "Enter your OpenAI API key"
               "Get your API key from https://platform.openai.com/api-keys"
               (if truthy (credential (session_state s))
                then credential (session_state s) else PyStr EmptyString))
  /\ sidebar_events (credential (session_state s)) inp !! 4 = Some (sidebar_feedback inp)
  /\ sidebar_events (credential (session_state s)) inp !! 7 = Some (quote_box inp).
Proof.
  split; [|repeat split].
  destruct s as [ss tr]. unfold rerun. rewrite script_run. cbn [session_state trace].
  destruct (appends_view_of provider inp
              {| session_state := stored_after_sidebar inp (init_session ss);
                 trace := tr ++ sidebar_events (credential ss) inp |}) as [evs Hevs].
  exists evs. rewrite Hevs. cbn [trace]. now rewrite app_assoc.
Qed.

(** X18. When a key is stored and the sidebar field is submitted empty, the
    run draws the warning that asks for a key, yet the key stays in force:
    [is_api_key_set] is true after the run. *)
Theorem warning_despite_stored_key provider s inp k :
  credential (session_state s) = PyStr k ->
  w_api_key inp = EmptyString ->
  (exists pre post,
     trace (rerun provider s inp)
     = trace s ++ pre
       ++ [st_sidebar_warning "⚠️ Please enter your OpenAI API key to use the app features"]
       ++ post)
  /\ (is_api_key_set (rerun provider s inp)).1 = Ok true.
Proof.
  intros Hcred Hempty. split.
  - destruct s as [ss tr]. unfold rerun. rewrite script_run. cbn [session_state trace] in *.
    destruct (appends_view_of provider inp
                {| session_state := stored_after_sidebar inp (init_session ss);
                   trace := tr ++ sidebar_events (credential ss) inp |}) as [evs Hevs].
    rewrite Hevs. cbn [trace]. unfold sidebar_events. rewrite Hempty. cbn [truthy_str].
    eexists [_; _; _; _], (_ :: _ :: _ :: _ :: evs).
    rewrite <- !app_assoc. reflexivity.
  - unfold is_api_key_set. run. rewrite lookup_rerun.
    unfold credential_at_trigger. rewrite Hempty, Hcred. reflexivity.
Qed.

Lemma warning_despite_stored_key_witness :
  credential (session_state keyed) = PyStr "sk-test"
  /\ w_api_key example_click = EmptyString
  /\ (is_api_key_set (rerun stub_provider keyed example_click)).1 = Ok true.
Proof.
  assert (H1 : credential (session_state keyed) = PyStr "sk-test")
    by (vm_compute; reflexivity).
  split; [exact H1 | split; [reflexivity |]].
  exact (proj2 (warning_despite_stored_key stub_provider keyed example_click "sk-test"
                  H1 eq_refl)).
Defined.
